(** * sistema_cotacao_distribuido: quote service and scatter/gather aggregator

    A shallow embedding of [quote_service/main.py] and
    [aggregator_service/main.py], and further down of
    [external_service/main.py] and [client_subscriber/main.py].

    - Python values that travel as JSON are the inductive [json]; a [dict] is
      an association list in insertion order (keys are distinct in every dict
      Python builds).
    - A number is kept by its value ([number]): the rational an int or a
      finite float equals, an infinity, or the NaN.  Where the source does
      arithmetic on floats (the sum and the quotient of the average) the model
      does it in IEEE binary64, with the operations of [SpecFloat].
    - Coroutines that can raise return a [result]; code that also reads or
      writes the module globals (the cache, the two shards, the Redis channel)
      runs in the state-and-exception monad [M].
    - Everything the services do not control (the upstream HTTP answers, Redis
      and PostgreSQL being reachable, the clock) is an explicit argument.
    - A string is the sequence of the bytes of its UTF-8 form.  [str.lower] is
      computed on strings of ASCII characters; on the other strings it is what
      the Unicode tables of the interpreter say ([Unicode]). *)

From Stdlib Require Import String Ascii List Bool Arith ZArith QArith Lia.
From Stdlib Require Import Permutation Sorted SpecFloat.
Import ListNotations.

Open Scope string_scope.
Open Scope list_scope.
Open Scope Z_scope.

(** ** Python values *)

Module Py.

(** A Python number by its value. *)
Inductive number : Type :=
| Finite (q : Q)
| Infinity (negative : bool)
| NaN.

Coercion Finite : Q >-> number.
Bind Scope Q_scope with number.

Unset Elimination Schemes.
Inductive json : Type :=
| JNull
| JBool (b : bool)
| JNum (n : number)
| JStr (s : string)
| JList (items : list json)
| JObj (fields : list (string * json)).
Set Elimination Schemes.

Inductive exn : Type :=
| RequestError
| HTTPStatusError (status : Z)
| JSONDecodeError
| AttributeError
| TypeError
| KeyError (key : string)
| ValueError
| OverflowError
| RedisError
| DatabaseError
| HTTPException (status_code : Z) (detail : string).

Inductive result (A : Type) : Type :=
| Return (a : A)
| Raise (e : exn).

Arguments Return {A} a.
Arguments Raise {A} e.

(** [bool(x)]: [None], [False], zero, and the empty string, list and dict are
    falsy; an infinity and the NaN are not zero. *)
Definition truthy (x : json) : bool :=
  match x with
  | JNull => false
  | JBool b => b
  | JNum (Finite q) => negb (Qeq_bool q 0)
  | JNum _ => true
  | JStr s => negb (String.eqb s "")
  | JList items => match items with [] => false | _ :: _ => true end
  | JObj fields => match fields with [] => false | _ :: _ => true end
  end.

Definition bool_as_num (b : bool) : Q := if b then 1%Q else 0%Q.

(** [a == b] on numbers: by value; the NaN equals nothing, itself included. *)
Definition num_eqb (a b : number) : bool :=
  match a, b with
  | Finite p, Finite q => Qeq_bool p q
  | Infinity s, Infinity t => Bool.eqb s t
  | _, _ => false
  end.

Definition is_nan (x : json) : bool :=
  match x with
  | JNum NaN => true
  | _ => false
  end.

(** [x == y].  [bool] is a subclass of [int], so booleans compare with numbers
    by value; lists compare element by element; two dicts are equal when they
    have the same size and every item of the left one is an item of the right
    one (keys are distinct in a dict).  For the elements of a list and the
    values of a dict Python tries identity before [==], and every NaN that
    [json.loads] makes is the one object [json.decoder.NaN]: inside a
    container a NaN equals a NaN, at top level it does not. *)
Fixpoint py_eq (x y : json) {struct x} : bool :=
  match x, y with
  | JNull, JNull => true
  | JBool a, JBool b => Bool.eqb a b
  | JBool a, JNum q => num_eqb (Finite (bool_as_num a)) q
  | JNum p, JBool b => num_eqb p (Finite (bool_as_num b))
  | JNum p, JNum q => num_eqb p q
  | JStr s, JStr t => String.eqb s t
  | JList xs, JList ys =>
      (fix all2 (xs ys : list json) {struct xs} : bool :=
         match xs, ys with
         | [], [] => true
         | a :: xs', b :: ys' =>
             ((is_nan a && is_nan b) || py_eq a b) && all2 xs' ys'
         | _, _ => false
         end) xs ys
  | JObj d, JObj e =>
      Nat.eqb (List.length d) (List.length e) &&
      (fix items (d : list (string * json)) {struct d} : bool :=
         match d with
         | [] => true
         | (k, v) :: d' =>
             (fix found (e : list (string * json)) {struct e} : bool :=
                match e with
                | [] => false
                | (k', v') :: e' =>
                    (String.eqb k k' && ((is_nan v && is_nan v') || py_eq v v'))
                    || found e'
                end) e && items d'
         end) d
  | _, _ => false
  end.

(** [d.get(key)] on the items of a dict. *)
Fixpoint lookup (key : string) (fields : list (string * json)) : option json :=
  match fields with
  | [] => None
  | (k, v) :: rest => if String.eqb key k then Some v else lookup key rest
  end.

(** [x.get(key, default)]: only a dict has the method. *)
Definition get (x : json) (key : string) (default : json) : result json :=
  match x with
  | JObj fields =>
      match lookup key fields with
      | Some v => Return v
      | None => Return default
      end
  | _ => Raise AttributeError
  end.

(** [list(x.values())]. *)
Definition values (x : json) : result (list json) :=
  match x with
  | JObj fields => Return (map snd fields)
  | _ => Raise AttributeError
  end.

Definition is_substring (needle hay : string) : bool :=
  match String.index 0 needle hay with
  | Some _ => true
  | None => false
  end.

(** [key in x] for a string [key]: dict membership looks at the keys, list
    membership at the elements, string membership is a substring test; the
    other JSON values are not containers. *)
Definition contains (key : string) (x : json) : result bool :=
  match x with
  | JObj fields =>
      Return (match lookup key fields with Some _ => true | None => false end)
  | JList items => Return (existsb (py_eq (JStr key)) items)
  | JStr s => Return (is_substring key s)
  | _ => Raise TypeError
  end.

(** [x[key]] for a string [key]. *)
Definition getitem (x : json) (key : string) : result json :=
  match x with
  | JObj fields =>
      match lookup key fields with
      | Some v => Return v
      | None => Raise (KeyError key)
      end
  | _ => Raise TypeError
  end.

(** *** [str.lower] *)

(** The case mapping of the characters outside ASCII comes with the
    interpreter (the Unicode character database), not with the repository:
    [lower_beyond_ascii s] is [s.lower()] for a string [s] that has such a
    character. *)
Class Unicode : Type := {
  lower_beyond_ascii : string -> string
}.

Definition lower_ascii (c : ascii) : ascii :=
  let n := nat_of_ascii c in
  if (Nat.leb 65 n && Nat.leb n 90)%bool then ascii_of_nat (n + 32) else c.

Fixpoint lower_letters (s : string) : string :=
  match s with
  | EmptyString => EmptyString
  | String c rest => String (lower_ascii c) (lower_letters rest)
  end.

Fixpoint is_ascii (s : string) : bool :=
  match s with
  | EmptyString => true
  | String c rest => Nat.ltb (nat_of_ascii c) 128 && is_ascii rest
  end.

(** [s.lower()]: on a string of ASCII characters the letters A to Z are
    replaced by a to z and nothing else changes. *)
Definition lower {U : Unicode} (s : string) : string :=
  if is_ascii s then lower_letters s else lower_beyond_ascii s.

(** *** Floats *)

(** Binary64: 53 bits of mantissa, infinities at exponent 1024. *)
Definition prec : Z := 53.
Definition emax : Z := 1024.

(** The double nearest to a rational, ties to even: the quotient is taken
    with more than 55 bits and one more bit that tells whether anything was
    left, and then rounded. *)
Definition nearest_double (q : Q) : spec_float :=
  let n := Qnum q in
  let d := Zpos (Qden q) in
  let k := Z.max 0 (57 + Z.log2 d - Z.log2 (Z.abs n)) in
  let a := Z.abs n * 2 ^ k in
  let m := 2 * (a / d) + (if a mod d =? 0 then 0 else 1) in
  binary_normalize prec emax (if n <? 0 then - m else m) (- k - 1) false.

(** The float of a number: a float is itself, and an int is converted as
    [float(n)] does when it succeeds. *)
Definition to_double (n : number) : spec_float :=
  match n with
  | Finite q => nearest_double q
  | Infinity s => S754_infinity s
  | NaN => S754_nan
  end.

(** The number a float is (the sign of a zero is not kept). *)
Definition of_double (f : spec_float) : number :=
  match f with
  | S754_zero _ => Finite 0
  | S754_infinity s => Infinity s
  | S754_nan => NaN
  | S754_finite s m e =>
      let v := if 0 <=? e
               then inject_Z (Zpos m * 2 ^ e)
               else Qmake (Zpos m) (Z.to_pos (2 ^ (- e))) in
      Finite (Qred (if s then Qopp v else v))
  end.

(** [sum(xs)] for floats [xs]: starts from the int 0 and adds from the left,
    each addition rounded (CPython before 3.12; later versions carry a
    compensation term). *)
Definition sum (xs : list number) : spec_float :=
  fold_left (SFadd prec emax) (map to_double xs) (S754_zero false).

(** [total / n] for a float [total] and an int [n] that is not 0. *)
Definition true_divide (total : spec_float) (n : nat) : spec_float :=
  SFdiv prec emax total (to_double (inject_Z (Z.of_nat n))).

End Py.

Export Py.

(** ** HTTP, as httpx shows it to the caller *)

Module Http.

(** What one [client.get(url)] meets: no answer at all (connection refused,
    timeout), or a response with a status and a body that may or may not parse
    as JSON. *)
Inductive outcome : Type :=
| NoAnswer
| Response (status : Z) (body : option json).

Definition is_success (status : Z) : bool :=
  (200 <=? status) && (status <=? 299).

(** [response = await client.get(url); response.raise_for_status();
    response.json()]. *)
Definition get_json (o : outcome) : result json :=
  match o with
  | NoAnswer => Raise RequestError
  | Response status body =>
      if is_success status then
        match body with
        | Some j => Return j
        | None => Raise JSONDecodeError
        end
      else Raise (HTTPStatusError status)
  end.

End Http.

(** ** The [quote_logs] table *)

Module Sql.

(** One row of [quote_logs]; the serial [id] is the position in the table.
    The FLOAT column holds a number, an infinity or the NaN. *)
Record row : Type := mk_row {
  coin : string;
  price : number;
  timestamp : Z
}.

Inductive shard : Type := Shard1 | Shard2.

Definition newer_or_same (a b : row) : Prop := timestamp b <= timestamp a.

(** [ORDER BY timestamp DESC] as PostgreSQL promises it: the rows come back
    rearranged so that timestamps never increase.  The query names no second
    sort key, so the order of rows with equal timestamps is the engine's
    choice. *)
Class Engine : Type := {
  order_by_timestamp_desc : list row -> list row;
  order_by_permutes : forall rows, Permutation (order_by_timestamp_desc rows) rows;
  order_by_sorts : forall rows, StronglySorted newer_or_same (order_by_timestamp_desc rows)
}.

Definition where_coin (c : string) (rows : list row) : list row :=
  filter (fun r => String.eqb (coin r) c) rows.

(** [SELECT ... FROM quote_logs WHERE coin = :coin ORDER BY timestamp DESC
    LIMIT :limit], for a limit the server accepts. *)
Definition select_recent `{Engine} (rows : list row) (c : string) (limit : nat) : list row :=
  firstn limit (order_by_timestamp_desc (where_coin c rows)).

(** [await db.fetch_all(query, values)]: fails when the shard cannot be
    reached; the driver sends LIMIT as a 64-bit integer and refuses a value
    that does not fit, and PostgreSQL rejects a negative LIMIT. *)
Definition fetch_all `{Engine} (reachable : bool) (rows : list row)
    (c : string) (limit : Z) : result (list row) :=
  if reachable && (0 <=? limit) && (limit <? 2 ^ 63)
  then Return (select_recent rows c (Z.to_nat limit))
  else Raise DatabaseError.

(** A Python value bound to a FLOAT column: a number is stored by its value,
    a boolean as 1 or 0, anything else is refused.  (The driver takes an int
    through [float]: the rounding of an int beyond 2^53 and the refusal of one
    beyond the doubles are left out; the arithmetic on the prices read back
    is done on their doubles.) *)
Definition as_float (v : json) : option number :=
  match v with
  | JNum q => Some q
  | JBool b => Some (Finite (bool_as_num b))
  | _ => None
  end.

(** [await db.execute("INSERT INTO quote_logs (coin, price, timestamp) VALUES
    ...")]: the new table, or the error of an unreachable shard, a value that
    is no number, or a coin longer than VARCHAR(10). *)
Definition execute_insert (reachable : bool) (rows : list row)
    (c : string) (p : json) (ts : Z) : result (list row) :=
  if reachable && Nat.leb (String.length c) 10 then
    match as_float p with
    | Some q => Return (rows ++ [mk_row c q ts])
    | None => Raise DatabaseError
    end
  else Raise DatabaseError.

End Sql.

(** ** quote_service/main.py *)

Module quote_service.

Import Sql.

(** Calls that leave the process, in the order they were made, each with what
    came of it. *)
Inductive event : Type :=
| Publish (channel : string) (payload : json) (delivered : bool)
| Insert (db : shard) (c : string) (p : json) (ts : Z) (stored : bool).

(** The module globals: the cache of the circuit breaker and the two shard
    connections (each stands for the [quote_logs] table behind it). *)
Record state : Type := mk_state {
  last_known_quote : json;
  shard1_db : list row;
  shard2_db : list row;
  trace : list event
}.

(** [last_known_quote = {"bitcoin": 0.0, "ethereum": 0.0}]. *)
Definition zero_quote : json :=
  JObj [("bitcoin", JNum 0); ("ethereum", JNum 0)].

Definition startup : state := mk_state zero_quote [] [] [].

Definition M (A : Type) : Type := state -> result A * state.

Definition ret {A : Type} (a : A) : M A := fun st => (Return a, st).

Definition raise {A : Type} (e : exn) : M A := fun st => (Raise e, st).

Definition bind {A B : Type} (m : M A) (k : A -> M B) : M B :=
  fun st =>
    match m st with
    | (Return a, st') => k a st'
    | (Raise e, st') => (Raise e, st')
    end.

Definition lift {A : Type} (r : result A) : M A := fun st => (r, st).

(** [try: m  except Exception as e: handler e]. *)
Definition try_except {A : Type} (m : M A) (handler : exn -> M A) : M A :=
  fun st =>
    match m st with
    | (Return a, st') => (Return a, st')
    | (Raise e, st') => handler e st'
    end.

Notation "x <- m ;; k" := (bind m (fun x => k))
  (at level 61, m at next level, right associativity).

Definition read_cache : M json :=
  fun st => (Return (last_known_quote st), st).

Definition write_cache (q : json) : M unit :=
  fun st => (Return tt, mk_state q (shard1_db st) (shard2_db st) (trace st)).

Definition table (db : shard) (st : state) : list row :=
  match db with
  | Shard1 => shard1_db st
  | Shard2 => shard2_db st
  end.

Definition set_table (db : shard) (rows : list row) (st : state) : state :=
  match db with
  | Shard1 => mk_state (last_known_quote st) rows (shard2_db st) (trace st)
  | Shard2 => mk_state (last_known_quote st) (shard1_db st) rows (trace st)
  end.

Definition record (e : event) (st : state) : state :=
  mk_state (last_known_quote st) (shard1_db st) (shard2_db st) (trace st ++ [e]).

(** The [retry=] predicate of the decorator:
    [retry_if_exception_type((httpx.RequestError, httpx.HTTPStatusError))]. *)
Definition retry_if_exception_type (e : exn) : bool :=
  match e with
  | RequestError | HTTPStatusError _ => true
  | _ => false
  end.

(** The body of [fetch_quote_from_external_service]: one attempt. *)
Definition fetch_once (o : Http.outcome) : M json :=
  new_quote <- lift (Http.get_json o) ;;
  _ <- write_cache new_quote ;;
  ret new_quote.

(** The tenacity wrapper: run the body; an exception the predicate accepts
    leads to the next attempt, any other is raised at once; when no attempt is
    left, [retry_error_callback] answers with the cache as it is then. *)
Fixpoint retrying (attempts_left : nat) (attempt : nat)
    (upstream : nat -> Http.outcome) : M json :=
  match attempts_left with
  | O => read_cache
  | S n =>
      try_except (fetch_once (upstream attempt))
        (fun e =>
           if retry_if_exception_type e
           then retrying n (S attempt) upstream
           else raise e)
  end.

(** [stop=stop_after_attempt(3)]. *)
Definition fetch_quote_from_external_service (upstream : nat -> Http.outcome) : M json :=
  retrying 3 0 upstream.

(** [await db.execute(query=query, values=values)] on a shard. *)
Definition db_execute (reachable : shard -> bool) (db : shard)
    (c : string) (p : json) (ts : Z) : M unit :=
  fun st =>
    match execute_insert (reachable db) (table db st) c p ts with
    | Return rows => (Return tt, record (Insert db c p ts true) (set_table db rows st))
    | Raise e => (Raise e, record (Insert db c p ts false) st)
    end.

Definition store_log (timestamp : Z) (reachable : shard -> bool)
    (c : string) (p : json) : M unit :=
  let insert_into (db : shard) : M unit :=
    try_except (db_execute reachable db c p timestamp) (fun _ => ret tt) in
  if String.eqb c "bitcoin" then insert_into Shard1
  else if String.eqb c "ethereum" then insert_into Shard2
  else ret tt.

(** [await redis_pool.publish(channel, json.dumps(payload))]. *)
Definition publish (redis_up : bool) (channel : string) (payload : json) : M unit :=
  fun st =>
    if redis_up
    then (Return tt, record (Publish channel payload true) st)
    else (Raise RedisError, record (Publish channel payload false) st).

(** What one turn of the loop meets outside the process. *)
Record cycle_env : Type := mk_env {
  upstream : nat -> Http.outcome;
  redis_up : bool;
  shard_up : shard -> bool;
  utcnow : nat -> Z
}.

(** [not quote or quote == last_known_quote and
     all(v == 0 for v in last_known_quote.values())]. *)
Definition no_quote (quote : json) : M bool :=
  if negb (truthy quote) then ret true
  else
    cache <- read_cache ;;
    if py_eq quote cache then
      vs <- lift (values cache) ;;
      ret (forallb (fun v => py_eq v (JNum 0)) vs)
    else ret false.

(** How a turn of the loop ends when nothing is raised: at [continue], or at
    the end of the body. *)
Inductive turn : Type := Skipped | Finished.

(** The body of [while True] in [background_quote_updater]. *)
Definition cycle (env : cycle_env) : M turn :=
  quote <- fetch_quote_from_external_service (upstream env) ;;
  skip <- no_quote quote ;;
  if skip then ret Skipped
  else
    _ <- publish (redis_up env) "precos" quote ;;
    bitcoin <- lift (get quote "bitcoin" (JNum 0)) ;;
    _ <- store_log (utcnow env 0%nat) (shard_up env) "bitcoin" bitcoin ;;
    ethereum <- lift (get quote "ethereum" (JNum 0)) ;;
    _ <- store_log (utcnow env 1%nat) (shard_up env) "ethereum" ethereum ;;
    ret Finished.

(** [background_quote_updater] over the turns the environment allows for: the
    task runs them one after the other and ends at the first exception. *)
Fixpoint background_quote_updater (envs : list cycle_env) : M (list turn) :=
  match envs with
  | [] => ret []
  | env :: later =>
      t <- cycle env ;;
      ts <- background_quote_updater later ;;
      ret (t :: ts)
  end.

(** [GET /cotacao_atual/{coin}]. *)
Definition get_current_quote {U : Unicode} (c : string) : M json :=
  cache <- read_cache ;;
  known <- lift (contains (lower c) cache) ;;
  if negb known then raise (HTTPException 404 "Moeda não encontrada.")
  else
    p <- lift (getitem cache (lower c)) ;;
    ret (JObj [("coin", JStr c); ("price", p)]).

Definition db_fetch_all `{Engine} (reachable : shard -> bool) (db : shard)
    (c : string) (limit : Z) : M (list row) :=
  fun st => (fetch_all (reachable db) (table db st) c limit, st).

Definition average_response (c : string) (average_price : json) (log_count : nat) : json :=
  JObj [("coin", JStr c);
        ("average_price", average_price);
        ("log_count", JNum (inject_Z (Z.of_nat log_count)))].

(** [GET /media_ultimos_10_logs/{coin}].  The prices come back from the FLOAT
    column as floats; their sum and the quotient are float arithmetic. *)
Definition get_average_last_10 `{Engine} {U : Unicode} (reachable : shard -> bool)
    (c : string) : M json :=
  db <- (if String.eqb (lower c) "bitcoin" then ret Shard1
         else if String.eqb (lower c) "ethereum" then ret Shard2
         else raise (HTTPException 404 "Moeda não suportada para logs.")) ;;
  results <- db_fetch_all reachable db (lower c) 10 ;;
  match results with
  | [] => ret (average_response c (JNum 0) 0)
  | _ :: _ =>
      let total_price := sum (map price results) in
      let average_price := true_divide total_price (List.length results) in
      ret (average_response c (JNum (of_double average_price)) (List.length results))
  end.

End quote_service.

(** ** aggregator_service/main.py *)

Module aggregator_service.

Import Sql.

(** What one request for the report meets: the answers of [quote_service] to
    the two average requests, and the two shards. *)
Record env : Type := mk_env {
  average_bitcoin : Http.outcome;
  average_ethereum : Http.outcome;
  shard1_up : bool;
  shard1_db : list row;
  shard2_up : bool;
  shard2_db : list row
}.

Definition average_error (c : string) : json :=
  JObj [("error", JStr ("Não foi possível obter a média para " ++ c)%string)].

(** Only [httpx.RequestError] is caught; a status error or a body that is not
    JSON leaves the coroutine as an exception. *)
Definition fetch_current_average_price (o : Http.outcome) (c : string) : result json :=
  match Http.get_json o with
  | Return j => Return j
  | Raise RequestError => Return (average_error c)
  | Raise e => Raise e
  end.

Definition log_entry (isoformat : Z -> string) (r : row) : json :=
  JObj [("coin", JStr (coin r));
        ("price", JNum (price r));
        ("timestamp", JStr (isoformat (timestamp r)))].

Definition logs_error (c : string) : json :=
  JList [JObj [("error", JStr ("Não foi possível obter logs para " ++ c)%string)]].

(** The default of the [limit] argument. *)
Definition default_limit : Z := 5.

Definition fetch_last_logs_from_shard `{Engine} (isoformat : Z -> string)
    (reachable : bool) (db : list row) (c : string) (limit : Z) : result json :=
  match fetch_all reachable db c limit with
  | Return results => Return (JList (map (log_entry isoformat) results))
  | Raise _ => Return (logs_error c)
  end.

(** An element of the list [asyncio.gather(..., return_exceptions=True)]
    answers with: what the coroutine returned, or the exception it raised,
    handed over as a value. *)
Inductive gathered : Type :=
| Value (v : json)
| Exception (e : exn).

Definition gather (tasks : list (result json)) : list gathered :=
  map (fun t => match t with Return v => Value v | Raise e => Exception e end) tasks.

Definition not_found : json := JStr "Chave 'average_price' não encontrada".

(** The helper [get_avg] of [get_full_report]. *)
Definition get_avg (r : gathered) : json :=
  match r with
  | Exception _ => JStr "Erro"
  | Value (JObj fields) =>
      match lookup "average_price" fields with
      | Some v => v
      | None => not_found
      end
  | Value _ => JStr "Erro"
  end.

Definition logs_or_error (r : gathered) : json :=
  match r with
  | Value v => v
  | Exception _ => JStr "Erro"
  end.

Definition response_data (bitcoin_avg ethereum_avg bitcoin_logs ethereum_logs : json) : json :=
  JObj [("media_precos", JObj [("bitcoin", bitcoin_avg); ("ethereum", ethereum_avg)]);
        ("ultimos_logs", JObj [("bitcoin", bitcoin_logs); ("ethereum", ethereum_logs)])].

(** [GET /report/full].  The four coroutines share nothing they write, so the
    order in which they take their turns does not show in the results. *)
Definition get_full_report `{Engine} (isoformat : Z -> string) (w : env) : result json :=
  let tasks :=
    [fetch_current_average_price (average_bitcoin w) "bitcoin";
     fetch_current_average_price (average_ethereum w) "ethereum";
     fetch_last_logs_from_shard isoformat (shard1_up w) (shard1_db w) "bitcoin" default_limit;
     fetch_last_logs_from_shard isoformat (shard2_up w) (shard2_db w) "ethereum" default_limit] in
  match gather tasks with
  | [avg_btc; avg_eth; logs_btc; logs_eth] =>
      Return (response_data (get_avg avg_btc) (get_avg avg_eth)
                (logs_or_error logs_btc) (logs_or_error logs_eth))
  | _ => Raise ValueError
  end.

End aggregator_service.

(** * Properties *)

(** ** Python values *)

Section PythonValues.

Variable P : json -> Prop.
Hypothesis P_null : P JNull.
Hypothesis P_bool : forall b, P (JBool b).
Hypothesis P_num : forall q, P (JNum q).
Hypothesis P_str : forall s, P (JStr s).
Hypothesis P_list : forall items, Forall P items -> P (JList items).
Hypothesis P_obj : forall fields, Forall (fun kv => P (snd kv)) fields -> P (JObj fields).

(** Structural induction on JSON values, through the lists of elements and of
    items. *)
Fixpoint json_ind (x : json) : P x :=
  match x with
  | JNull => P_null
  | JBool b => P_bool b
  | JNum q => P_num q
  | JStr s => P_str s
  | JList items =>
      P_list items
        ((fix each (l : list json) : Forall P l :=
            match l with
            | [] => Forall_nil P
            | y :: l' => Forall_cons y (json_ind y) (each l')
            end) items)
  | JObj fields =>
      P_obj fields
        ((fix each (l : list (string * json)) : Forall (fun kv => P (snd kv)) l :=
            match l with
            | [] => Forall_nil _
            | kv :: l' => Forall_cons kv (json_ind (snd kv)) (each l')
            end) fields)
  end.

End PythonValues.

Lemma same_or_nan (x : json) :
  py_eq x x = negb (is_nan x) -> (is_nan x && is_nan x) || py_eq x x = true.
Proof. intros ->. now destruct (is_nan x). Qed.

(** A value equals itself, but for the NaN at top level. *)
Lemma py_eq_same (x : json) : py_eq x x = negb (is_nan x).
Proof.
  induction x using json_ind; simpl.
  - reflexivity.
  - apply Bool.eqb_reflx.
  - destruct q as [q|s|]; simpl.
    + apply Qeq_bool_refl.
    + apply Bool.eqb_reflx.
    + reflexivity.
  - apply String.eqb_refl.
  - induction H as [|y items Hy _ IH]; [reflexivity|].
    now rewrite (same_or_nan y Hy), IH.
  - rewrite Nat.eqb_refl; simpl.
    assert (G : forall d, incl d fields ->
      (fix items (d : list (string * json)) : bool :=
         match d with
         | [] => true
         | (k, v) :: d' =>
             (fix found (e : list (string * json)) : bool :=
                match e with
                | [] => false
                | (k', v') :: e' =>
                    (String.eqb k k' && ((is_nan v && is_nan v') || py_eq v v'))
                    || found e'
                end) fields && items d'
         end) d = true).
    { induction d as [|[k v] d IH]; intros Hd; [reflexivity|].
      rewrite IH by (intros kv Hkv; apply Hd; now right).
      rewrite andb_true_r.
      assert (Hin : In (k, v) fields) by (apply Hd; now left).
      clear IH Hd.
      induction H as [|[k' v'] e Hkv _ IH]; [contradiction|].
      destruct Hin as [Heq|Hin].
      - inversion Heq; subst. simpl in Hkv.
        now rewrite String.eqb_refl, (same_or_nan v Hkv).
      - rewrite (IH Hin). apply orb_true_r. }
    apply G, incl_refl.
Qed.

(** The lowering of the interpreters at hand is not needed where every coin is
    ASCII: this instance leaves the other strings as they are. *)
Definition ascii_rules : Unicode := {| lower_beyond_ascii := fun s => s |}.

Lemma lower_bitcoin `{Unicode} :
  lower "Bitcoin" = "bitcoin" /\ lower "ETHEREUM" = "ethereum".
Proof. split; reflexivity. Qed.

(** ** The circuit breaker *)

Section CircuitBreaker.

Import quote_service.

(** An attempt that tenacity answers with another attempt: no answer from the
    upstream, or a status that is not 2xx. *)
Definition fails (o : Http.outcome) : bool :=
  match o with
  | Http.NoAnswer => true
  | Http.Response status _ => negb (Http.is_success status)
  end.

(** An attempt that brings a quote. *)
Definition brings (o : Http.outcome) (quote : json) : Prop :=
  exists status, Http.is_success status = true /\ o = Http.Response status (Some quote).

Definition with_cache (q : json) (st : state) : state :=
  mk_state q (shard1_db st) (shard2_db st) (trace st).

Lemma fails_retried (o : Http.outcome) :
  fails o = true ->
  exists e, Http.get_json o = Raise e /\ retry_if_exception_type e = true.
Proof.
  destruct o as [|status body]; simpl.
  - intros _. now exists RequestError.
  - intros H. apply negb_true_iff in H. rewrite H.
    now exists (HTTPStatusError status).
Qed.

Lemma retrying_failed_attempt (n attempt : nat) (upstream : nat -> Http.outcome) (st : state) :
  fails (upstream attempt) = true ->
  retrying (S n) attempt upstream st = retrying n (S attempt) upstream st.
Proof.
  intros H. destruct (fails_retried _ H) as (e & He & Hr).
  simpl. unfold try_except, fetch_once, bind, lift. now rewrite He, Hr.
Qed.

Lemma retrying_good_attempt (n attempt : nat) (upstream : nat -> Http.outcome)
    (st : state) (quote : json) :
  brings (upstream attempt) quote ->
  retrying (S n) attempt upstream st = (Return quote, with_cache quote st).
Proof.
  intros (status & Hs & Ho). simpl.
  unfold try_except, fetch_once, bind, lift. rewrite Ho. simpl. now rewrite Hs.
Qed.

Lemma retrying_exhausted (n attempt : nat) (upstream : nat -> Http.outcome) (st : state) :
  (forall i, (i < n)%nat -> fails (upstream (attempt + i)%nat) = true) ->
  retrying n attempt upstream st = (Return (last_known_quote st), st).
Proof.
  revert attempt. induction n as [|n IH]; intros attempt H; [reflexivity|].
  rewrite retrying_failed_attempt.
  - apply IH. intros i Hi.
    replace (S attempt + i)%nat with (attempt + S i)%nat by lia.
    apply H. lia.
  - rewrite <- (Nat.add_0_r attempt). apply H. lia.
Qed.

Lemma retrying_succeeds_later (n k attempt : nat) (upstream : nat -> Http.outcome)
    (st : state) (quote : json) :
  (k < n)%nat ->
  (forall i, (i < k)%nat -> fails (upstream (attempt + i)%nat) = true) ->
  brings (upstream (attempt + k)%nat) quote ->
  retrying n attempt upstream st = (Return quote, with_cache quote st).
Proof.
  revert n attempt. induction k as [|k IH]; intros n attempt Hk Hf Hb.
  - destruct n as [|n]; [lia|].
    rewrite Nat.add_0_r in Hb. now apply retrying_good_attempt.
  - destruct n as [|n]; [lia|].
    rewrite retrying_failed_attempt.
    + apply IH; [lia| |].
      * intros i Hi.
        replace (S attempt + i)%nat with (attempt + S i)%nat by lia.
        apply Hf. lia.
      * now replace (S attempt + k)%nat with (attempt + S k)%nat by lia.
    + rewrite <- (Nat.add_0_r attempt). apply Hf. lia.
Qed.

(** Whatever the upstream does, a fetch that returns leaves the cache equal to
    what it returns, and touches neither the shards nor the channel. *)
Lemma retrying_returns_cache (n attempt : nat) (upstream : nat -> Http.outcome)
    (st st' : state) (quote : json) :
  retrying n attempt upstream st = (Return quote, st') ->
  st' = with_cache quote st.
Proof.
  revert attempt st. induction n as [|n IH]; intros attempt st H.
  - simpl in H. unfold read_cache in H. inversion H; subst.
    now destruct st'.
  - simpl in H. unfold try_except, fetch_once, bind, lift in H.
    destruct (Http.get_json (upstream attempt)) as [j|e].
    + simpl in H. now inversion H.
    + destruct (retry_if_exception_type e).
      * now apply IH in H.
      * discriminate.
Qed.

(** A fetch that raises has changed nothing. *)
Lemma retrying_raises_unchanged (n attempt : nat) (upstream : nat -> Http.outcome)
    (st st' : state) (e : exn) :
  retrying n attempt upstream st = (Raise e, st') -> st' = st.
Proof.
  revert attempt. induction n as [|n IH]; intros attempt H.
  - discriminate.
  - simpl in H. unfold try_except, fetch_once, bind, lift in H.
    destruct (Http.get_json (upstream attempt)) as [j|e'].
    + discriminate.
    + destruct (retry_if_exception_type e').
      * now apply IH in H.
      * unfold raise in H. now inversion H.
Qed.

(** C1: when every one of the three attempts ends in a transport error or a
    status that is not 2xx, [fetch_quote_from_external_service] does not raise:
    it returns the cache as it was before the call, and the call leaves the
    cache (and the rest of the state) as it was. *)
Theorem fetch_exhausted_returns_cache (upstream : nat -> Http.outcome) (st : state) :
  (forall i, (i < 3)%nat -> fails (upstream i) = true) ->
  fetch_quote_from_external_service upstream st = (Return (last_known_quote st), st).
Proof.
  intros H. unfold fetch_quote_from_external_service.
  apply retrying_exhausted. intros i Hi. now apply H.
Qed.

Definition always_503 : nat -> Http.outcome :=
  fun _ => Http.Response 503 None.

Lemma fetch_exhausted_returns_cache_witness :
  (forall i, (i < 3)%nat -> fails (always_503 i) = true) /\
  fetch_quote_from_external_service always_503 startup = (Return zero_quote, startup).
Proof.
  split.
  - intros i _. reflexivity.
  - apply (fetch_exhausted_returns_cache always_503 startup).
    intros i _. reflexivity.
Defined.

(** C9: when an attempt among the three brings the quote [Q], the earlier ones
    having failed, the call returns [Q] itself and the cache is [Q] afterwards;
    nothing else in the state changes. *)
Theorem fetch_success_replaces_cache (upstream : nat -> Http.outcome) (st : state)
    (k : nat) (Q : json) :
  (k < 3)%nat ->
  (forall i, (i < k)%nat -> fails (upstream i) = true) ->
  brings (upstream k) Q ->
  exists st',
    fetch_quote_from_external_service upstream st = (Return Q, st') /\
    last_known_quote st' = Q /\
    shard1_db st' = shard1_db st /\ shard2_db st' = shard2_db st /\
    trace st' = trace st.
Proof.
  intros Hk Hf Hb. exists (with_cache Q st). split; [|now simpl].
  unfold fetch_quote_from_external_service.
  now apply retrying_succeeds_later with (k := k).
Qed.

Definition quote_50000_3000 : json :=
  JObj [("bitcoin", JNum 50000); ("ethereum", JNum 3000)].

(** The upstream of the repository: a 503 first, then the prices. *)
Definition fails_once : nat -> Http.outcome :=
  fun i =>
    match i with
    | O => Http.Response 503 None
    | _ => Http.Response 200 (Some quote_50000_3000)
    end.

Lemma fetch_success_replaces_cache_witness :
  exists st',
    fetch_quote_from_external_service fails_once startup = (Return quote_50000_3000, st') /\
    last_known_quote st' = quote_50000_3000 /\
    shard1_db st' = shard1_db startup /\ shard2_db st' = shard2_db startup /\
    trace st' = trace startup.
Proof.
  apply (fetch_success_replaces_cache fails_once startup 1 quote_50000_3000).
  - lia.
  - intros i Hi. assert (i = 0%nat) as -> by lia. reflexivity.
  - exists 200. split; reflexivity.
Defined.

End CircuitBreaker.

(** ** Sharded storage of the quote service *)

Section ShardedStorage.

Import Sql quote_service.

Context {U : Unicode}.

(** The shard assignment both call sites spell out as [if]/[elif]:
    bitcoin on shard 1, ethereum on shard 2, nothing else. *)
Definition shard_of (c : string) : option shard :=
  if String.eqb c "bitcoin" then Some Shard1
  else if String.eqb c "ethereum" then Some Shard2
  else None.

(** An insert lands when the shard answers and the value is a number. *)
Definition lands (reachable : bool) (p : json) : bool :=
  reachable && match as_float p with Some _ => true | None => false end.

Definition new_rows (reachable : bool) (c : string) (p : json) (ts : Z) : list row :=
  if reachable then
    match as_float p with
    | Some q => [mk_row c q ts]
    | None => []
    end
  else [].

(** The state after one call of [store_log] for a coin of shard [db]. *)
Definition after_insert (reachable : shard -> bool) (db : shard)
    (c : string) (p : json) (ts : Z) (st : state) : state :=
  record (Insert db c p ts (lands (reachable db) p))
    (set_table db (table db st ++ new_rows (reachable db) c p ts) st).

Lemma set_table_same (db : shard) (st : state) : set_table db (table db st) st = st.
Proof. now destruct db, st. Qed.

Lemma store_log_routed (ts : Z) (reachable : shard -> bool) (c : string)
    (p : json) (st : state) (db : shard) :
  shard_of c = Some db ->
  store_log ts reachable c p st = (Return tt, after_insert reachable db c p ts st).
Proof.
  unfold shard_of, store_log. intros H.
  assert (Hdb : try_except (db_execute reachable db c p ts) (fun _ => ret tt) st
                = (Return tt, after_insert reachable db c p ts st)).
  { assert (Hlen : Nat.leb (String.length c) 10 = true).
    { destruct (String.eqb_spec c "bitcoin") as [->|_]; [reflexivity|].
      destruct (String.eqb_spec c "ethereum") as [->|_]; [reflexivity|discriminate]. }
    unfold try_except, db_execute, execute_insert, after_insert, lands, new_rows.
    rewrite Hlen, andb_true_r.
    destruct (reachable db); simpl.
    - destruct (as_float p); [reflexivity|].
      unfold ret. now rewrite app_nil_r, set_table_same.
    - unfold ret. now rewrite app_nil_r, set_table_same. }
  destruct (String.eqb c "bitcoin").
  - inversion H; subst. exact Hdb.
  - destruct (String.eqb c "ethereum"); [|discriminate].
    inversion H; subst. exact Hdb.
Qed.

Lemma store_log_unrouted (ts : Z) (reachable : shard -> bool) (c : string)
    (p : json) (st : state) :
  shard_of c = None ->
  store_log ts reachable c p st = (Return tt, st).
Proof.
  unfold shard_of, store_log. intros H.
  destruct (String.eqb c "bitcoin"); [discriminate|].
  destruct (String.eqb c "ethereum"); [discriminate|reflexivity].
Qed.

Lemma get_average_unrouted `{Engine} (reachable : shard -> bool) (c : string) (st : state) :
  shard_of (lower c) = None ->
  get_average_last_10 reachable c st
  = (Raise (HTTPException 404 "Moeda não suportada para logs."), st).
Proof.
  unfold shard_of, get_average_last_10, bind. intros Hc.
  destruct (String.eqb (lower c) "bitcoin"); [discriminate|].
  destruct (String.eqb (lower c) "ethereum"); [discriminate|reflexivity].
Qed.

(** The answer of the average endpoint once the rows are there. *)
Definition average_of (c : string) (results : list row) : json :=
  match results with
  | [] => average_response c (JNum 0) 0
  | _ :: _ =>
      average_response c
        (JNum (of_double (true_divide (sum (map price results)) (List.length results))))
        (List.length results)
  end.

Lemma get_average_routed `{Engine} (reachable : shard -> bool) (c : string)
    (st : state) (db : shard) :
  shard_of (lower c) = Some db ->
  get_average_last_10 reachable c st
  = match fetch_all (reachable db) (table db st) (lower c) 10 with
    | Return results => (Return (average_of c results), st)
    | Raise e => (Raise e, st)
    end.
Proof.
  unfold shard_of, get_average_last_10, bind, db_fetch_all. intros Hc.
  assert (Hr : (if String.eqb (lower c) "bitcoin" then ret Shard1
                else if String.eqb (lower c) "ethereum" then ret Shard2
                else raise (HTTPException 404 "Moeda não suportada para logs.")) st
               = (Return db, st)).
  { destruct (String.eqb (lower c) "bitcoin"); [now inversion Hc|].
    destruct (String.eqb (lower c) "ethereum"); [now inversion Hc|discriminate]. }
  rewrite Hr.
  destruct (fetch_all (reachable db) (table db st) (lower c) 10) as [[|r results]|e];
    reflexivity.
Qed.

(** C4, as the code has it: the two call sites that choose a shard follow one
    assignment, [shard_of].  For a coin outside it, [store_log] returns
    without an error and without touching anything, while the average endpoint
    answers 404.  For a coin inside it, the shard is the one the assignment
    names, on every call: [store_log] makes its one insert there, and the
    average endpoint reads there. *)
Theorem shard_routing `{Engine} (ts : Z) (reachable : shard -> bool) (c : string)
    (p : json) (st : state) :
  match shard_of c with
  | None => store_log ts reachable c p st = (Return tt, st)
  | Some db => store_log ts reachable c p st = (Return tt, after_insert reachable db c p ts st)
  end /\
  match shard_of (lower c) with
  | None =>
      get_average_last_10 reachable c st
      = (Raise (HTTPException 404 "Moeda não suportada para logs."), st)
  | Some db =>
      get_average_last_10 reachable c st
      = match fetch_all (reachable db) (table db st) (lower c) 10 with
        | Return results => (Return (average_of c results), st)
        | Raise e => (Raise e, st)
        end
  end.
Proof.
  split.
  - destruct (shard_of c) eqn:Hc.
    + now apply store_log_routed.
    + now apply store_log_unrouted.
  - destruct (shard_of (lower c)) eqn:Hc.
    + now apply get_average_routed.
    + now apply get_average_unrouted.
Qed.

(** C4 as stated fails at [store_log]: a coin without a shard is dropped
    without any error, and nothing records the call. *)
Lemma store_log_drops_unknown_coin :
  shard_of "dogecoin" = None /\
  store_log 0 (fun _ => true) "dogecoin" (JNum 1) startup = (Return tt, startup).
Proof. split; reflexivity. Qed.

End ShardedStorage.

(** ** The refresh loop *)

Section RefreshLoop.

Import Sql quote_service.

Definition is_zero (v : json) : bool := py_eq v (JNum 0).

(** The quote is falsy (nothing in it), or it is a dict all of whose values
    are zero, as in the cache at startup. *)
Definition empty_or_all_zero (quote : json) : bool :=
  negb (truthy quote) ||
  match quote with
  | JObj fields => forallb (fun kv => is_zero (snd kv)) fields
  | _ => false
  end.

Definition is_dict (x : json) : bool :=
  match x with
  | JObj _ => true
  | _ => false
  end.

Lemma fetch_returns_cache (upstream : nat -> Http.outcome) (st st1 : state) (quote : json) :
  fetch_quote_from_external_service upstream st = (Return quote, st1) ->
  st1 = with_cache quote st.
Proof. apply retrying_returns_cache. Qed.

Lemma forallb_values (fields : list (string * json)) :
  forallb (fun v => py_eq v (JNum 0)) (map snd fields)
  = forallb (fun kv => is_zero (snd kv)) fields.
Proof.
  induction fields as [|kv fields IH]; simpl; [reflexivity|].
  now rewrite IH.
Qed.

(** The test of the loop when the quote is the cache itself, which is what
    both ways out of the fetch leave behind. *)
Lemma no_quote_on_cache (quote : json) (st : state) :
  last_known_quote st = quote ->
  no_quote quote st
  = if negb (truthy quote) then (Return true, st)
    else if is_nan quote then (Return false, st)
    else match quote with
         | JObj fields => (Return (forallb (fun kv => is_zero (snd kv)) fields), st)
         | _ => (Raise AttributeError, st)
         end.
Proof.
  intros Hc. unfold no_quote.
  destruct (negb (truthy quote)); [reflexivity|].
  unfold bind, read_cache, lift. rewrite Hc, py_eq_same.
  destruct (is_nan quote); [reflexivity|]. cbn [negb].
  destruct quote; try reflexivity.
  unfold values, ret. now rewrite forallb_values.
Qed.

Lemma no_quote_of_dict (fields : list (string * json)) (st : state) :
  last_known_quote st = JObj fields ->
  no_quote (JObj fields) st = (Return (empty_or_all_zero (JObj fields)), st).
Proof.
  intros Hc. rewrite (no_quote_on_cache _ _ Hc). unfold empty_or_all_zero.
  destruct fields as [|kv fields]; reflexivity.
Qed.

(** The value [quote.get(key, 0.0)] hands to [store_log]. *)
Definition price_in (fields : list (string * json)) (key : string) : json :=
  match lookup key fields with
  | Some v => v
  | None => JNum 0
  end.

Lemma get_of_dict (fields : list (string * json)) (key : string) :
  get (JObj fields) key (JNum 0) = Return (price_in fields key).
Proof. unfold get, price_in. now destruct (lookup key fields). Qed.

(** The state at the end of a turn that went through all three steps. *)
Definition after_turn (env : cycle_env) (fields : list (string * json)) (st : state) : state :=
  after_insert (shard_up env) Shard2 "ethereum" (price_in fields "ethereum") (utcnow env 1%nat)
    (after_insert (shard_up env) Shard1 "bitcoin" (price_in fields "bitcoin") (utcnow env 0%nat)
       (record (Publish "precos" (JObj fields) true) (with_cache (JObj fields) st))).

Lemma cycle_of_dict (env : cycle_env) (st st1 : state) (fields : list (string * json)) :
  fetch_quote_from_external_service (upstream env) st = (Return (JObj fields), st1) ->
  cycle env st
  = if empty_or_all_zero (JObj fields) then (Return Skipped, with_cache (JObj fields) st)
    else if redis_up env then (Return Finished, after_turn env fields st)
    else (Raise RedisError,
          record (Publish "precos" (JObj fields) false) (with_cache (JObj fields) st)).
Proof.
  intros Hf. pose proof (fetch_returns_cache _ _ _ _ Hf) as ->.
  unfold cycle. unfold bind at 1. rewrite Hf.
  unfold bind at 1. rewrite no_quote_of_dict by reflexivity.
  destruct (empty_or_all_zero (JObj fields)); [reflexivity|].
  unfold bind at 1. unfold publish.
  destruct (redis_up env); [|reflexivity].
  unfold bind at 1. unfold lift at 1. rewrite get_of_dict.
  unfold bind at 1. rewrite (store_log_routed _ _ _ _ _ Shard1) by reflexivity.
  unfold bind at 1. unfold lift at 1. rewrite get_of_dict.
  unfold bind at 1. rewrite (store_log_routed _ _ _ _ _ Shard2) by reflexivity.
  reflexivity.
Qed.

Lemma cycle_of_raise (env : cycle_env) (st st1 : state) (e : exn) :
  fetch_quote_from_external_service (upstream env) st = (Raise e, st1) ->
  cycle env st = (Raise e, st).
Proof.
  intros Hf. pose proof (retrying_raises_unchanged _ _ _ _ _ _ Hf) as ->.
  unfold cycle. unfold bind at 1. now rewrite Hf.
Qed.

Lemma cycle_of_other (env : cycle_env) (st st1 : state) (quote : json) :
  fetch_quote_from_external_service (upstream env) st = (Return quote, st1) ->
  is_dict quote = false ->
  cycle env st
  = if truthy quote then
      if is_nan quote then
        if redis_up env
        then (Raise AttributeError, record (Publish "precos" quote true) st1)
        else (Raise RedisError, record (Publish "precos" quote false) st1)
      else (Raise AttributeError, st1)
    else (Return Skipped, st1).
Proof.
  intros Hf Hd. pose proof (fetch_returns_cache _ _ _ _ Hf) as ->.
  unfold cycle. unfold bind at 1. rewrite Hf.
  unfold bind at 1. rewrite no_quote_on_cache by reflexivity.
  destruct (truthy quote); simpl; [|reflexivity].
  destruct (is_nan quote) eqn:Hn.
  - unfold bind at 1. unfold publish.
    destruct (redis_up env); [|reflexivity].
    unfold bind at 1. unfold lift at 1.
    destruct quote as [| | [| |] | | |]; try discriminate. reflexivity.
  - destruct quote; try reflexivity. discriminate.
Qed.

(** What the upstream sends when all prices are gone but one coin is left. *)
Definition only_bitcoin_zero : json := JObj [("bitcoin", JNum 0)].

Definition steady (o : Http.outcome) : cycle_env :=
  mk_env (fun _ => o) true (fun _ => true) (fun i => Z.of_nat i).

(** C5 as stated fails: the turn is also skipped for a quote that is neither
    empty nor equal to the cache of startup, as soon as all its values are
    zero. *)
Lemma skipped_without_being_the_zero_state :
  let env := steady (Http.Response 200 (Some only_bitcoin_zero)) in
  fst (fetch_quote_from_external_service (upstream env) startup) = Return only_bitcoin_zero /\
  truthy only_bitcoin_zero = true /\
  py_eq only_bitcoin_zero zero_quote = false /\
  fst (cycle env startup) = Return Skipped /\
  trace (snd (cycle env startup)) = [].
Proof. vm_compute. repeat split; reflexivity. Qed.

(** C5, as the code has it: a turn of the loop ends at [continue], with
    nothing published and nothing stored, exactly when the fetched quote is
    falsy or is a dict whose values are all zero (the cache of startup is one
    such dict); a dict that is not of this kind is published.  In particular,
    with the upstream failing three times on the state of startup, the fetch
    returns the zero quote and the turn is skipped, the state being what it
    was. *)
Theorem cycle_skips_iff_empty_or_all_zero (env : cycle_env) (st st1 : state) (quote : json) :
  fetch_quote_from_external_service (upstream env) st = (Return quote, st1) ->
  (cycle env st = (Return Skipped, st1) <-> empty_or_all_zero quote = true) /\
  (trace st1 = trace st /\ shard1_db st1 = shard1_db st /\ shard2_db st1 = shard2_db st) /\
  (empty_or_all_zero quote = false -> is_dict quote = true ->
   exists later,
     trace (snd (cycle env st)) = trace st ++ Publish "precos" quote (redis_up env) :: later) /\
  (forall env0,
     (forall i, (i < 3)%nat -> fails (upstream env0 i) = true) ->
     fetch_quote_from_external_service (upstream env0) startup = (Return zero_quote, startup) /\
     cycle env0 startup = (Return Skipped, startup)).
Proof.
  intros Hf. pose proof (fetch_returns_cache _ _ _ _ Hf) as Hst.
  repeat split.
  - destruct (is_dict quote) eqn:Hd.
    + destruct quote; try discriminate.
      rewrite (cycle_of_dict _ _ _ _ Hf).
      destruct (empty_or_all_zero (JObj fields)); [reflexivity|].
      destruct (redis_up env); discriminate.
    + rewrite (cycle_of_other _ _ _ _ Hf Hd). unfold empty_or_all_zero.
      destruct (truthy quote); simpl; [|reflexivity].
      destruct (is_nan quote); [destruct (redis_up env)|]; discriminate.
  - intros Hz. destruct (is_dict quote) eqn:Hd.
    + destruct quote; try discriminate.
      rewrite (cycle_of_dict _ _ _ _ Hf), Hz, Hst. reflexivity.
    + rewrite (cycle_of_other _ _ _ _ Hf Hd).
      unfold empty_or_all_zero in Hz.
      destruct (truthy quote); simpl in Hz; [|reflexivity].
      destruct quote; discriminate.
  - now rewrite Hst.
  - now rewrite Hst.
  - now rewrite Hst.
  - intros Hz Hd. destruct quote; try discriminate.
    rewrite (cycle_of_dict _ _ _ _ Hf), Hz.
    destruct (redis_up env).
    + eexists. unfold after_turn, after_insert, record. simpl.
      rewrite <- !app_assoc. reflexivity.
    + exists []. reflexivity.
  - apply retrying_exhausted. intros i Hi. now apply H.
  - assert (Hf0 : fetch_quote_from_external_service (upstream env0) startup
                  = (Return zero_quote, startup)).
    { apply retrying_exhausted. intros i Hi. now apply H. }
    unfold zero_quote in Hf0. rewrite (cycle_of_dict _ _ _ _ Hf0). reflexivity.
Qed.

Lemma cycle_skips_iff_empty_or_all_zero_witness :
  let env := steady (Http.Response 503 None) in
  fetch_quote_from_external_service (upstream env) startup = (Return zero_quote, startup) /\
  (cycle env startup = (Return Skipped, startup) <-> empty_or_all_zero zero_quote = true).
Proof.
  split; [reflexivity|].
  apply (cycle_skips_iff_empty_or_all_zero
           (steady (Http.Response 503 None)) startup startup zero_quote).
  reflexivity.
Defined.

(** C6, as the code has it: in a turn that is not skipped and whose publish
    goes through, the loop publishes the quote [Q] on [precos] and then calls
    the insert once for bitcoin on shard 1 and once for ethereum on shard 2, in
    this order, whatever symbols [Q] has: the price is the one [Q] carries for
    the coin, and 0.0 for a coin [Q] lacks.  Each insert lands or not on its own
    (shard reachable, value a number): the second is made whatever became of
    the first, and a row that landed stays. *)
Theorem cycle_publishes_then_stores_both (env : cycle_env) (st st1 : state)
    (fields : list (string * json)) :
  fetch_quote_from_external_service (upstream env) st = (Return (JObj fields), st1) ->
  empty_or_all_zero (JObj fields) = false ->
  redis_up env = true ->
  let btc := price_in fields "bitcoin" in
  let eth := price_in fields "ethereum" in
  exists st2,
    cycle env st = (Return Finished, st2) /\
    trace st2
    = trace st ++
      [Publish "precos" (JObj fields) true;
       Insert Shard1 "bitcoin" btc (utcnow env 0%nat) (lands (shard_up env Shard1) btc);
       Insert Shard2 "ethereum" eth (utcnow env 1%nat) (lands (shard_up env Shard2) eth)] /\
    shard1_db st2
    = shard1_db st ++ new_rows (shard_up env Shard1) "bitcoin" btc (utcnow env 0%nat) /\
    shard2_db st2
    = shard2_db st ++ new_rows (shard_up env Shard2) "ethereum" eth (utcnow env 1%nat).
Proof.
  intros Hf Hz Hr btc eth. exists (after_turn env fields st).
  rewrite (cycle_of_dict _ _ _ _ Hf), Hz, Hr.
  unfold after_turn, after_insert, record. simpl.
  rewrite <- !app_assoc. repeat split.
Qed.

Definition bitcoin_alone : json := JObj [("bitcoin", JNum 50000)].

(** A turn in which shard 1 is down and the upstream sends bitcoin alone. *)
Definition shard1_down : cycle_env :=
  mk_env (fun _ => Http.Response 200 (Some bitcoin_alone)) true
    (fun db => match db with Shard1 => false | Shard2 => true end)
    (fun i => Z.of_nat i).

Lemma cycle_publishes_then_stores_both_witness :
  exists st2,
    cycle shard1_down startup = (Return Finished, st2) /\
    trace st2
    = [Publish "precos" bitcoin_alone true;
       Insert Shard1 "bitcoin" (JNum 50000) 0 false;
       Insert Shard2 "ethereum" (JNum 0) 1 true] /\
    shard1_db st2 = [] /\
    shard2_db st2 = [mk_row "ethereum" 0 1].
Proof.
  apply (cycle_publishes_then_stores_both shard1_down startup
           (with_cache bitcoin_alone startup) [("bitcoin", JNum 50000)]);
    reflexivity.
Defined.

(** C6 as stated fails: ethereum is not a symbol of the quote, and yet the
    turn inserts a row for it, with price 0. *)
Lemma absent_symbol_is_stored_as_zero :
  let env := steady (Http.Response 200 (Some bitcoin_alone)) in
  fst (fetch_quote_from_external_service (upstream env) startup) = Return bitcoin_alone /\
  contains "ethereum" bitcoin_alone = Return false /\
  fst (cycle env startup) = Return Finished /\
  trace (snd (cycle env startup))
  = [Publish "precos" bitcoin_alone true;
     Insert Shard1 "bitcoin" (JNum 50000) 0 true;
     Insert Shard2 "ethereum" (JNum 0) 1 true] /\
  shard2_db (snd (cycle env startup)) = [mk_row "ethereum" 0 1].
Proof. vm_compute. repeat split; reflexivity. Qed.

(** An attempt that fails in a way tenacity retries, or that brings a dict. *)
Definition retried_or_dict (o : Http.outcome) : bool :=
  fails o ||
  match o with
  | Http.Response _ (Some (JObj _)) => true
  | _ => false
  end.

(** A turn in which Redis takes the message and the upstream sends no body
    other than a dict; the shards may be down. *)
Definition calm (env : cycle_env) : Prop :=
  redis_up env = true /\
  forall i, (i < 3)%nat -> retried_or_dict (upstream env i) = true.

(** A turn in which an attempt, after failed ones, gets a 2xx answer whose
    body is not JSON. *)
Definition garbled (env : cycle_env) : Prop :=
  exists k status,
    (k < 3)%nat /\
    (forall i, (i < k)%nat -> fails (upstream env i) = true) /\
    Http.is_success status = true /\
    upstream env k = Http.Response status None.

Lemma with_cache_same (st : state) : with_cache (last_known_quote st) st = st.
Proof. now destruct st. Qed.

Lemma retrying_brings_dict (n attempt : nat) (upstream : nat -> Http.outcome) (st : state) :
  is_dict (last_known_quote st) = true ->
  (forall i, (i < n)%nat -> retried_or_dict (upstream (attempt + i)%nat) = true) ->
  exists fields,
    retrying n attempt upstream st = (Return (JObj fields), with_cache (JObj fields) st).
Proof.
  intros Hd. revert attempt. induction n as [|n IH]; intros attempt H.
  - destruct (last_known_quote st) as [| | | | |fields] eqn:Hc; try discriminate.
    exists fields. simpl. unfold read_cache. now rewrite <- Hc, with_cache_same.
  - assert (H0 : retried_or_dict (upstream attempt) = true).
    { rewrite <- (Nat.add_0_r attempt). apply H. lia. }
    unfold retried_or_dict in H0.
    destruct (fails (upstream attempt)) eqn:Hf.
    + rewrite retrying_failed_attempt by exact Hf.
      apply IH. intros i Hi.
      replace (S attempt + i)%nat with (attempt + S i)%nat by lia.
      apply H. lia.
    + simpl in H0.
      destruct (upstream attempt) as [|status [[| | | | |fields]|]] eqn:Ho;
        try discriminate.
      exists fields. apply retrying_good_attempt.
      exists status. split; [|exact Ho].
      simpl in Hf. now apply negb_false_iff in Hf.
Qed.

Lemma retrying_garbled (n k attempt : nat) (upstream : nat -> Http.outcome)
    (st : state) (status : Z) :
  (k < n)%nat ->
  (forall i, (i < k)%nat -> fails (upstream (attempt + i)%nat) = true) ->
  Http.is_success status = true ->
  upstream (attempt + k)%nat = Http.Response status None ->
  retrying n attempt upstream st = (Raise JSONDecodeError, st).
Proof.
  revert n attempt. induction k as [|k IH]; intros n attempt Hk Hf Hs Ho.
  - destruct n as [|n]; [lia|].
    rewrite Nat.add_0_r in Ho. simpl.
    unfold try_except, fetch_once, bind, lift. rewrite Ho. simpl. now rewrite Hs.
  - destruct n as [|n]; [lia|].
    rewrite retrying_failed_attempt.
    + apply IH; [lia| |exact Hs|].
      * intros i Hi.
        replace (S attempt + i)%nat with (attempt + S i)%nat by lia.
        apply Hf. lia.
      * now replace (S attempt + k)%nat with (attempt + S k)%nat by lia.
    + rewrite <- (Nat.add_0_r attempt). apply Hf. lia.
Qed.

Lemma calm_cycle (env : cycle_env) (st : state) :
  is_dict (last_known_quote st) = true ->
  calm env ->
  exists t st',
    cycle env st = (Return t, st') /\ is_dict (last_known_quote st') = true.
Proof.
  intros Hd [Hr Hu].
  destruct (retrying_brings_dict 3 0 (upstream env) st Hd Hu) as [fields Hf].
  rewrite (cycle_of_dict _ _ _ _ Hf), Hr.
  destruct (empty_or_all_zero (JObj fields)); eexists; eexists; split; reflexivity.
Qed.

Lemma garbled_cycle (env : cycle_env) (st : state) :
  garbled env -> cycle env st = (Raise JSONDecodeError, st).
Proof.
  intros (k & status & Hk & Hf & Hs & Ho).
  apply cycle_of_raise with (st1 := st).
  now apply retrying_garbled with (k := k) (status := status).
Qed.

Lemma calm_loop (envs : list cycle_env) (st : state) :
  is_dict (last_known_quote st) = true ->
  Forall calm envs ->
  exists turns st',
    background_quote_updater envs st = (Return turns, st') /\
    List.length turns = List.length envs /\
    is_dict (last_known_quote st') = true.
Proof.
  intros Hd Hc. revert st Hd.
  induction Hc as [|env envs Henv _ IH]; intros st Hd.
  - exists [], st. now repeat split.
  - destruct (calm_cycle env st Hd Henv) as (t & st1 & Ht & Hd1).
    destruct (IH st1 Hd1) as (turns & st2 & Hl & Hlen & Hd2).
    exists (t :: turns), st2. simpl. unfold bind at 1. rewrite Ht.
    unfold bind at 1. rewrite Hl. simpl. now rewrite Hlen.
Qed.

Lemma loop_app (before after : list cycle_env) (st : state) :
  background_quote_updater (before ++ after) st
  = match background_quote_updater before st with
    | (Return turns, st1) =>
        match background_quote_updater after st1 with
        | (Return turns', st2) => (Return (turns ++ turns'), st2)
        | (Raise e, st2) => (Raise e, st2)
        end
    | (Raise e, st1) => (Raise e, st1)
    end.
Proof.
  revert st. induction before as [|env before IH]; intros st; simpl.
  - unfold ret. now destruct (background_quote_updater after st) as [[turns|e] st2].
  - unfold bind at 1 3.
    destruct (cycle env st) as [[t|e] st1]; [|reflexivity].
    unfold bind at 1 2. rewrite IH.
    destruct (background_quote_updater before st1) as [[turns|e] st2]; [|reflexivity].
    unfold ret. cbn iota.
    destruct (background_quote_updater after st2) as [[turns'|e] st3]; reflexivity.
Qed.

(** C3, as the code has it: over any number of turns in which the upstream
    sends no body other than a dict and Redis takes the message, attempts that
    end in a transport error or a status that is not 2xx, and inserts that
    fail, are all absorbed: the loop goes through every turn and raises
    nothing.  A 2xx answer whose body is not JSON is not among the exceptions
    the fetch retries: it leaves the fetch and the loop body at once, and the
    task ends there. *)
Theorem loop_absorbs_fetch_and_insert_failures (envs : list cycle_env) (st : state) :
  is_dict (last_known_quote st) = true ->
  Forall calm envs ->
  (exists turns st',
     background_quote_updater envs st = (Return turns, st') /\
     List.length turns = List.length envs) /\
  (forall env later,
     garbled env ->
     exists st',
       background_quote_updater (envs ++ env :: later) st = (Raise JSONDecodeError, st')).
Proof.
  intros Hd Hc.
  destruct (calm_loop envs st Hd Hc) as (turns & st1 & Hl & Hlen & _).
  split.
  - now exists turns, st1.
  - intros env later Hg. exists st1.
    rewrite loop_app, Hl. simpl. unfold bind at 1.
    now rewrite (garbled_cycle env st1 Hg).
Qed.

(** A turn with both shards down, and a turn with the upstream down. *)
Definition shards_down : cycle_env :=
  mk_env (fun _ => Http.Response 200 (Some quote_50000_3000)) true
    (fun _ => false) (fun i => Z.of_nat i).

Definition upstream_down : cycle_env :=
  mk_env (fun _ => Http.NoAnswer) true (fun _ => true) (fun i => Z.of_nat i).

Lemma loop_absorbs_fetch_and_insert_failures_witness :
  (exists turns st',
     background_quote_updater [shards_down; upstream_down] startup = (Return turns, st') /\
     List.length turns = 2%nat) /\
  (forall env later,
     garbled env ->
     exists st',
       background_quote_updater ([shards_down; upstream_down] ++ env :: later) startup
       = (Raise JSONDecodeError, st')).
Proof.
  apply (loop_absorbs_fetch_and_insert_failures [shards_down; upstream_down] startup).
  - reflexivity.
  - repeat constructor; intros i _; reflexivity.
Defined.

Definition redis_down : cycle_env :=
  mk_env (fun _ => Http.Response 200 (Some quote_50000_3000)) false
    (fun _ => true) (fun i => Z.of_nat i).

Definition body_not_json : cycle_env :=
  mk_env (fun _ => Http.Response 200 None) true (fun _ => true) (fun i => Z.of_nat i).

(** The upstream answers with a JSON list instead of a dict. *)
Definition body_is_a_list : cycle_env :=
  steady (Http.Response 200 (Some (JList [JNum 50000; JNum 3000]))).

(** C3 as stated fails: a publish that Redis refuses, a body that is not
    JSON, and a body that is JSON but no dict (it has no [values]), each leave
    the loop body as an exception; the turn that should have come next never
    runs. *)
Lemma loop_ends_on_publish_or_payload_failure :
  let healthy := steady (Http.Response 200 (Some quote_50000_3000)) in
  fst (background_quote_updater [redis_down; healthy] startup) = Raise RedisError /\
  trace (snd (background_quote_updater [redis_down; healthy] startup))
  = [Publish "precos" quote_50000_3000 false] /\
  fst (background_quote_updater [body_not_json; healthy] startup) = Raise JSONDecodeError /\
  trace (snd (background_quote_updater [body_not_json; healthy] startup)) = [] /\
  fst (background_quote_updater [body_is_a_list; healthy] startup) = Raise AttributeError /\
  trace (snd (background_quote_updater [body_is_a_list; healthy] startup)) = [].
Proof. vm_compute. repeat split; reflexivity. Qed.

End RefreshLoop.

(** ** Two database engines *)

Section Engines.

Import Sql.

(** Insertion of a row into a list that is newest first.  Among rows of the
    same timestamp the new row goes in front when [front] holds, and behind
    otherwise. *)
Fixpoint insert_desc (front : bool) (x : row) (sorted : list row) : list row :=
  match sorted with
  | [] => [x]
  | y :: rest =>
      if (if front then timestamp y <=? timestamp x else timestamp y <? timestamp x)
      then x :: y :: rest
      else y :: insert_desc front x rest
  end.

Definition sort_desc (front : bool) (rows : list row) : list row :=
  fold_right (insert_desc front) [] rows.

Lemma insert_desc_permutes (front : bool) (x : row) (sorted : list row) :
  Permutation (insert_desc front x sorted) (x :: sorted).
Proof.
  induction sorted as [|y rest IH]; simpl; [reflexivity|].
  destruct (if front then timestamp y <=? timestamp x else timestamp y <? timestamp x).
  - reflexivity.
  - rewrite IH. apply perm_swap.
Qed.

Lemma sort_desc_permutes (front : bool) (rows : list row) :
  Permutation (sort_desc front rows) rows.
Proof.
  induction rows as [|x rows IH]; simpl; [reflexivity|].
  rewrite insert_desc_permutes. now apply perm_skip.
Qed.

Lemma insert_desc_sorts (front : bool) (x : row) (sorted : list row) :
  StronglySorted newer_or_same sorted ->
  StronglySorted newer_or_same (insert_desc front x sorted).
Proof.
  induction 1 as [|y rest Hs IH Hy]; simpl.
  - repeat constructor.
  - destruct (if front then timestamp y <=? timestamp x else timestamp y <? timestamp x) eqn:Hc.
    + assert (Hxy : timestamp y <= timestamp x) by (destruct front; lia).
      constructor; [now constructor|].
      constructor; [exact Hxy|].
      eapply Forall_impl; [|exact Hy].
      unfold newer_or_same. intros z Hz. lia.
    + assert (Hyx : timestamp x <= timestamp y) by (destruct front; lia).
      constructor; [exact IH|].
      apply (Permutation_Forall (Permutation_sym (insert_desc_permutes front x rest))).
      now constructor.
Qed.

Lemma sort_desc_sorts (front : bool) (rows : list row) :
  StronglySorted newer_or_same (sort_desc front rows).
Proof.
  induction rows as [|x rows IH]; simpl; [constructor|].
  now apply insert_desc_sorts.
Qed.

(** Equal timestamps come back in the order of insertion. *)
Definition insertion_order_engine : Engine :=
  Build_Engine (sort_desc true) (sort_desc_permutes true) (sort_desc_sorts true).

(** Equal timestamps come back last inserted first. *)
Definition reverse_order_engine : Engine :=
  Build_Engine (sort_desc false) (sort_desc_permutes false) (sort_desc_sorts false).

End Engines.

(** ** Queries on a shard *)

Section Queries.

Import Sql.

Context `{Engine} {U : Unicode}.

Lemma StronglySorted_app_left (A : Type) (R : A -> A -> Prop) (l1 l2 : list A) :
  StronglySorted R (l1 ++ l2) -> StronglySorted R l1.
Proof.
  induction l1 as [|a l1 IH]; simpl; intros Hs; [constructor|].
  apply StronglySorted_inv in Hs as [Hs Ha].
  constructor; [now apply IH|].
  apply Forall_app in Ha. tauto.
Qed.

Lemma select_recent_split (rows : list row) (c : string) (limit : nat) :
  select_recent rows c limit
  ++ skipn limit (order_by_timestamp_desc (where_coin c rows))
  = order_by_timestamp_desc (where_coin c rows).
Proof. apply firstn_skipn. Qed.

Lemma select_recent_length (rows : list row) (c : string) (limit : nat) :
  List.length (select_recent rows c limit)
  = Nat.min limit (List.length (where_coin c rows)).
Proof.
  unfold select_recent. rewrite length_firstn.
  now rewrite (Permutation_length (order_by_permutes (where_coin c rows))).
Qed.

Lemma select_recent_all (rows : list row) (c : string) (limit : nat) :
  (List.length (where_coin c rows) <= limit)%nat ->
  select_recent rows c limit = order_by_timestamp_desc (where_coin c rows).
Proof.
  intros Hn. unfold select_recent. apply firstn_all2.
  now rewrite (Permutation_length (order_by_permutes (where_coin c rows))).
Qed.

Lemma select_recent_none (rows : list row) (c : string) (limit : nat) :
  where_coin c rows = [] -> select_recent rows c limit = [].
Proof.
  intros Hn. unfold select_recent.
  rewrite Hn. pose proof (order_by_permutes []) as Hp.
  apply Permutation_sym, Permutation_nil in Hp. rewrite Hp. apply firstn_nil.
Qed.

Lemma select_recent_in (rows : list row) (c : string) (limit : nat) (r : row) :
  In r (select_recent rows c limit) -> In r rows /\ coin r = c.
Proof.
  intros Hr.
  assert (Hin : In r (where_coin c rows)).
  { apply (Permutation_in _ (order_by_permutes (where_coin c rows))).
    rewrite <- (select_recent_split rows c limit). apply in_or_app. now left. }
  unfold where_coin in Hin. apply filter_In in Hin as [Hin Hc].
  split; [exact Hin|]. now apply String.eqb_eq.
Qed.

(** [chosen] are the [k] newest rows of the coin in the table (all of them
    when there are fewer), newest first. *)
Definition newest (k : nat) (c : string) (db chosen : list row) : Prop :=
  exists older,
    Permutation (chosen ++ older) (filter (fun r => String.eqb (coin r) c) db) /\
    List.length chosen
    = Nat.min k (List.length (filter (fun r => String.eqb (coin r) c) db)) /\
    StronglySorted (fun a b => timestamp b <= timestamp a) chosen /\
    (forall a b, In a chosen -> In b older -> timestamp b <= timestamp a).

Lemma sorted_front_newer (front back : list row) :
  StronglySorted newer_or_same (front ++ back) ->
  forall a b, In a front -> In b back -> timestamp b <= timestamp a.
Proof.
  induction front as [|x front IH]; simpl; intros Hs a b Ha Hb; [contradiction|].
  apply StronglySorted_inv in Hs as [Hs Hx].
  destruct Ha as [<-|Ha].
  - rewrite Forall_forall in Hx. apply Hx. apply in_or_app. now right.
  - now apply IH.
Qed.

Lemma select_recent_newest (k : nat) (c : string) (db : list row) :
  newest k c db (select_recent db c k).
Proof.
  exists (skipn k (order_by_timestamp_desc (where_coin c db))).
  assert (Hs : StronglySorted newer_or_same
                 (select_recent db c k
                  ++ skipn k (order_by_timestamp_desc (where_coin c db)))).
  { rewrite select_recent_split. apply order_by_sorts. }
  split; [rewrite select_recent_split; apply order_by_permutes|].
  split; [apply select_recent_length|].
  split; [exact (StronglySorted_app_left _ _ _ _ Hs)|].
  now apply sorted_front_newer.
Qed.

Lemma ten_fits : (10 <? 2 ^ 63) = true.
Proof. reflexivity. Qed.

Lemma average_read (reachable : shard -> bool) (c : string)
    (st : quote_service.state) (db : shard) :
  shard_of (lower c) = Some db ->
  reachable db = true ->
  quote_service.get_average_last_10 reachable c st
  = (Return (average_of c (select_recent (quote_service.table db st) (lower c) 10)), st).
Proof.
  intros Hc Hr. rewrite (get_average_routed reachable c st db Hc).
  unfold fetch_all. rewrite Hr. cbn [andb Z.leb Z.compare]. rewrite ten_fits.
  reflexivity.
Qed.


(** The scenario of the specification: 100.0 at [t1], then 200.0 at [t2]. *)
Definition two_bitcoin_logs (t1 t2 : Z) : list row :=
  [mk_row "bitcoin" 100 t1; mk_row "bitcoin" 200 t2].

(** C8, as the code has it: for a limit [0 <= k < 2^63] and a reachable shard,
    the logs returned are the first [min k n] of the [n] entries of the coin
    put newest first: entries of the table, all of the coin, at most [k] of
    them, timestamps never increasing, none older left out in favour of them,
    and none at all when the shard holds no entry of the coin.  Which of two
    entries of equal timestamp comes first is not settled by the query. *)
Theorem recent_logs_newest_first (isoformat : Z -> string) (db : list row)
    (c : string) (k : Z) :
  0 <= k < 2 ^ 63 ->
  exists rows older,
    aggregator_service.fetch_last_logs_from_shard isoformat true db c k
    = Return (JList (map (fun r => JObj [("coin", JStr (coin r));
                                         ("price", JNum (price r));
                                         ("timestamp", JStr (isoformat (timestamp r)))])
                       rows)) /\
    (List.length rows <= Z.to_nat k)%nat /\
    List.length rows
    = Nat.min (Z.to_nat k) (List.length (filter (fun r => String.eqb (coin r) c) db)) /\
    (forall r, In r rows -> In r db /\ coin r = c) /\
    StronglySorted (fun a b => timestamp b <= timestamp a) rows /\
    StronglySorted (fun a b => timestamp b <= timestamp a) (rows ++ older) /\
    Permutation (rows ++ older) (filter (fun r => String.eqb (coin r) c) db) /\
    (filter (fun r => String.eqb (coin r) c) db = [] -> rows = []).
Proof.
  intros [Hk Hmax].
  exists (select_recent db c (Z.to_nat k)),
         (skipn (Z.to_nat k) (order_by_timestamp_desc (where_coin c db))).
  assert (Hs : StronglySorted newer_or_same
                 (select_recent db c (Z.to_nat k)
                  ++ skipn (Z.to_nat k) (order_by_timestamp_desc (where_coin c db)))).
  { rewrite select_recent_split. apply order_by_sorts. }
  split.
  { unfold aggregator_service.fetch_last_logs_from_shard, fetch_all.
    apply Z.leb_le in Hk. apply Z.ltb_lt in Hmax. now rewrite Hk, Hmax. }
  split; [rewrite select_recent_length; apply Nat.le_min_l|].
  split; [apply select_recent_length|].
  split; [intros r; apply select_recent_in|].
  split; [exact (StronglySorted_app_left _ _ _ _ Hs)|].
  split; [exact Hs|].
  split; [rewrite select_recent_split; apply order_by_permutes|].
  apply select_recent_none.
Qed.

End Queries.

Section QueryExamples.

Import Sql.

Lemma two_logs_newest_first `{Engine} (t1 t2 : Z) :
  t1 < t2 ->
  order_by_timestamp_desc (two_bitcoin_logs t1 t2)
  = [mk_row "bitcoin" 200 t2; mk_row "bitcoin" 100 t1].
Proof.
  intros Ht.
  pose proof (order_by_permutes (two_bitcoin_logs t1 t2)) as Hp.
  pose proof (order_by_sorts (two_bitcoin_logs t1 t2)) as Hs.
  destruct (order_by_timestamp_desc (two_bitcoin_logs t1 t2)) as [|a [|b [|x l]]].
  - apply Permutation_length in Hp. discriminate.
  - apply Permutation_length in Hp. discriminate.
  - apply Permutation_length_2_inv in Hp as [Hp|Hp]; inversion Hp; subst.
    + apply StronglySorted_inv in Hs as [_ Hs]. inversion Hs; subst.
      unfold newer_or_same in *. simpl in *. lia.
    + reflexivity.
  - apply Permutation_length in Hp. discriminate.
Qed.





Lemma recent_logs_newest_first_witness :
  exists rows older,
    aggregator_service.fetch_last_logs_from_shard (H := insertion_order_engine)
      (fun _ => "") true (two_bitcoin_logs 1 2) "bitcoin" 1
    = Return (JList (map (fun r => JObj [("coin", JStr (coin r));
                                         ("price", JNum (price r));
                                         ("timestamp", JStr "")])
                       rows)) /\
    (List.length rows <= 1)%nat /\
    List.length rows = 1%nat /\
    (forall r, In r rows -> In r (two_bitcoin_logs 1 2) /\ coin r = "bitcoin") /\
    StronglySorted (fun a b => timestamp b <= timestamp a) rows /\
    StronglySorted (fun a b => timestamp b <= timestamp a) (rows ++ older) /\
    Permutation (rows ++ older) (two_bitcoin_logs 1 2) /\
    (two_bitcoin_logs 1 2 = [] -> rows = []).
Proof.
  apply (recent_logs_newest_first (H := insertion_order_engine)
           (fun _ => "") (two_bitcoin_logs 1 2) "bitcoin" 1).
  split; [lia|reflexivity].
Defined.

(** The same two rows, written at the same instant. *)
Definition same_instant : list row := two_bitcoin_logs 7 7.

(** C8 as stated fails on the order of ties: two engines that both honour
    ORDER BY timestamp DESC answer the same query on the same table with
    different rows, so the order of insertion does not settle the answer. *)
Lemma ties_follow_the_engine :
  select_recent (H := insertion_order_engine) same_instant "bitcoin" 1
  = [mk_row "bitcoin" 100 7] /\
  select_recent (H := reverse_order_engine) same_instant "bitcoin" 1
  = [mk_row "bitcoin" 200 7] /\
  ~ (forall (E : Engine) (db : list row) (c : string) (k : nat),
       select_recent (H := E) db c k = firstn k (sort_desc true (where_coin c db))).
Proof.
  split; [reflexivity|]. split; [reflexivity|].
  intros Hall. specialize (Hall reverse_order_engine same_instant "bitcoin" 1%nat).
  vm_compute in Hall. discriminate.
Qed.

(** The scenario of the specification, on any engine: with [t1 < t2], the
    average over the two logs is 150 with count 2, and the most recent log is
    the one of [t2]. *)
Lemma two_logs_scenario `{Engine} {U : Unicode} (t1 t2 : Z) :
  t1 < t2 ->
  select_recent (two_bitcoin_logs t1 t2) "bitcoin" 1 = [mk_row "bitcoin" 200 t2] /\
  quote_service.get_average_last_10 (fun _ => true) "bitcoin"
    (quote_service.mk_state quote_service.zero_quote (two_bitcoin_logs t1 t2) [] [])
  = (Return (JObj [("coin", JStr "bitcoin");
                   ("average_price", JNum 150);
                   ("log_count", JNum 2)]),
     quote_service.mk_state quote_service.zero_quote (two_bitcoin_logs t1 t2) [] []).
Proof.
  intros Ht. split.
  - unfold select_recent.
    change (where_coin "bitcoin" (two_bitcoin_logs t1 t2)) with (two_bitcoin_logs t1 t2).
    now rewrite two_logs_newest_first.
  - rewrite (average_read _ _ _ Shard1) by reflexivity.
    unfold select_recent.
    change (where_coin (lower "bitcoin") _) with (two_bitcoin_logs t1 t2).
    rewrite two_logs_newest_first by exact Ht.
    reflexivity.
Qed.

End QueryExamples.

(** ** The direct-read endpoints *)

(** The lowercase form of a coin written in ASCII: A to Z become a to z, the
    other characters stay; no answer for a coin with a character outside
    ASCII. *)
Fixpoint ascii_lowercase (c : string) : option string :=
  match c with
  | EmptyString => Some EmptyString
  | String a rest =>
      let n := nat_of_ascii a in
      if Nat.ltb n 128 then
        match ascii_lowercase rest with
        | Some low =>
            Some (String (if (Nat.leb 65 n && Nat.leb n 90)%bool
                          then ascii_of_nat (n + 32) else a) low)
        | None => None
        end
      else None
  end.

Lemma lower_of_ascii {U : Unicode} (c low : string) :
  ascii_lowercase c = Some low -> lower c = low.
Proof.
  intros Hl. unfold lower.
  assert (G : is_ascii c = true /\ lower_letters c = low).
  { revert low Hl. induction c as [|a rest IH]; simpl; intros low Hl.
    - now inversion Hl.
    - destruct (Nat.ltb (nat_of_ascii a) 128); [|discriminate].
      destruct (ascii_lowercase rest) as [low'|]; [|discriminate].
      destruct (IH low' eq_refl) as [Ha Hr]. inversion Hl; subst.
      split; [exact Ha|]. reflexivity. }
  destruct G as [-> Hr]. exact Hr.
Qed.

Section DirectReads.

Import Sql quote_service.

Context `{Engine} {U : Unicode}.

(** C10: both endpoints look the coin up in lower case and answer with the
    coin as the caller wrote it.  [get_current_quote] finds the price under
    the lowered name in the cache and answers 404 when the cache has no such
    key; [get_average_last_10] chooses the shard by the lowered name, filters
    the rows by it, and answers 404 when the lowered name has no shard.  For a
    coin written in ASCII the lowered name is the coin with A to Z replaced by
    a to z, so that "Bitcoin", "BITCOIN" and "bitcoin" are served alike. *)
Theorem endpoints_lower_the_coin (reachable : shard -> bool) (c : string)
    (fields : list (string * json)) (rows1 rows2 : list row) (tr : list event) :
  let st := mk_state (JObj fields) rows1 rows2 tr in
  get_current_quote c st
  = match lookup (lower c) fields with
    | Some p => (Return (JObj [("coin", JStr c); ("price", p)]), st)
    | None => (Raise (HTTPException 404 "Moeda não encontrada."), st)
    end /\
  get_average_last_10 reachable c st
  = match shard_of (lower c) with
    | Some db =>
        match fetch_all (reachable db) (table db st) (lower c) 10 with
        | Return results => (Return (average_of c results), st)
        | Raise e => (Raise e, st)
        end
    | None => (Raise (HTTPException 404 "Moeda não suportada para logs."), st)
    end /\
  (forall results, get (average_of c results) "coin" JNull = Return (JStr c)) /\
  (forall low, ascii_lowercase c = Some low -> lower c = low).
Proof.
  intros st. repeat split.
  - unfold get_current_quote, bind, read_cache, lift, contains, getitem. simpl.
    destruct (lookup (lower c) fields); reflexivity.
  - destruct (shard_of (lower c)) eqn:Hc.
    + now apply get_average_routed.
    + now apply get_average_unrouted.
  - intros [|r results]; reflexivity.
  - apply lower_of_ascii.
Qed.

End DirectReads.

Section DirectReadExamples.

Import Sql quote_service.

(** "Bitcoin" is served as bitcoin and echoed as "Bitcoin"; "Dogecoin" is
    unknown to both endpoints. *)
Lemma endpoints_lower_the_coin_witness :
  let st := mk_state quote_50000_3000 [mk_row "bitcoin" 100 1; mk_row "bitcoin" 200 2] [] [] in
  ascii_lowercase "Bitcoin" = Some "bitcoin" /\
  get_current_quote (U := ascii_rules) "Bitcoin" st
  = (Return (JObj [("coin", JStr "Bitcoin"); ("price", JNum 50000)]), st) /\
  get_average_last_10 (H := insertion_order_engine) (U := ascii_rules)
    (fun _ => true) "Bitcoin" st
  = (Return (JObj [("coin", JStr "Bitcoin");
                   ("average_price", JNum 150);
                   ("log_count", JNum 2)]), st) /\
  get_current_quote (U := ascii_rules) "Dogecoin" st
  = (Raise (HTTPException 404 "Moeda não encontrada."), st) /\
  get_average_last_10 (H := insertion_order_engine) (U := ascii_rules)
    (fun _ => true) "Dogecoin" st
  = (Raise (HTTPException 404 "Moeda não suportada para logs."), st).
Proof.
  intros st. split; [reflexivity|].
  destruct (endpoints_lower_the_coin (H := insertion_order_engine) (U := ascii_rules)
              (fun _ => true) "Bitcoin"
              [("bitcoin", JNum 50000); ("ethereum", JNum 3000)]
              [mk_row "bitcoin" 100 1; mk_row "bitcoin" 200 2] [] [])
    as (Hq & Ha & _ & Hl).
  destruct (endpoints_lower_the_coin (H := insertion_order_engine) (U := ascii_rules)
              (fun _ => true) "Dogecoin"
              [("bitcoin", JNum 50000); ("ethereum", JNum 3000)]
              [mk_row "bitcoin" 100 1; mk_row "bitcoin" 200 2] [] [])
    as (Hq' & Ha' & _ & Hl').
  rewrite (Hl "bitcoin" eq_refl) in Hq, Ha.
  rewrite (Hl' "dogecoin" eq_refl) in Hq', Ha'.
  split; [exact Hq|]. split; [exact Ha|]. split; [exact Hq'|exact Ha'].
Defined.

End DirectReadExamples.

(** ** The aggregated report *)

Section Aggregation.

Import Sql aggregator_service.

Context `{Engine}.

(** What the report shows for a price summary, read off the answer of
    [quote_service]: the average of a 2xx answer that is a dict with one; the
    marker of a missing average for a 2xx dict without one and for no answer
    at all (the call then returns the error payload, a dict without average);
    the marker "Erro" for a status that is not 2xx, a body that is not JSON
    and a body that is no dict (the call raised, or returned no dict). *)
Definition summary_shown (o : Http.outcome) : json :=
  match o with
  | Http.NoAnswer => JStr "Chave 'average_price' não encontrada"
  | Http.Response status body =>
      if (200 <=? status) && (status <=? 299) then
        match body with
        | Some (JObj fields) =>
            match lookup "average_price" fields with
            | Some v => v
            | None => JStr "Chave 'average_price' não encontrada"
            end
        | _ => JStr "Erro"
        end
      else JStr "Erro"
  end.

(** What the report shows for a slice of logs: the entries of the rows the
    query returned, or the error payload the call builds when the shard
    fails. *)
Definition logs_shown (isoformat : Z -> string) (up : bool) (c : string)
    (rows : list row) : json :=
  if up then
    JList (map (fun r => JObj [("coin", JStr (coin r));
                               ("price", JNum (price r));
                               ("timestamp", JStr (isoformat (timestamp r)))])
             rows)
  else JList [JObj [("error", JStr ("Não foi possível obter logs para " ++ c)%string)]].

Lemma get_avg_shown (o : Http.outcome) (c : string) :
  get_avg (match fetch_current_average_price o c with
           | Return v => Value v
           | Raise e => Exception e
           end)
  = summary_shown o.
Proof.
  destruct o as [|status [body|]]; [reflexivity| |].
  - unfold fetch_current_average_price, Http.get_json, Http.is_success, summary_shown.
    destruct ((200 <=? status) && (status <=? 299)); [|reflexivity].
    now destruct body.
  - unfold fetch_current_average_price, Http.get_json, Http.is_success, summary_shown.
    now destruct ((200 <=? status) && (status <=? 299)).
Qed.

Lemma logs_or_error_shown (isoformat : Z -> string) (up : bool) (db : list row)
    (c : string) :
  logs_or_error
    (match fetch_last_logs_from_shard isoformat up db c default_limit with
     | Return v => Value v
     | Raise e => Exception e
     end)
  = logs_shown isoformat up c (select_recent db c 5).
Proof.
  unfold fetch_last_logs_from_shard, fetch_all. now destruct up.
Qed.

(** C2: whatever becomes of the four calls, [get_full_report] returns a
    report and raises nothing.  The report is a dict of the two price
    summaries under [media_precos] and the two slices of logs under
    [ultimos_logs], and each of the four fields follows from the call behind
    it alone: a price summary shows the average the call returned, or a marker
    when the call raised, returned the error payload or returned anything
    without an average; a slice of logs shows the five newest logs of the
    coin, or the error payload the call builds when the shard fails.  So a
    call that fails marks its own field and leaves the other three as they
    are. *)
Theorem full_report_degrades_by_field (isoformat : Z -> string) (w : env) :
  exists bitcoin_rows ethereum_rows,
    newest 5 "bitcoin" (shard1_db w) bitcoin_rows /\
    newest 5 "ethereum" (shard2_db w) ethereum_rows /\
    get_full_report isoformat w
    = Return
        (JObj [("media_precos",
                JObj [("bitcoin", summary_shown (average_bitcoin w));
                      ("ethereum", summary_shown (average_ethereum w))]);
               ("ultimos_logs",
                JObj [("bitcoin", logs_shown isoformat (shard1_up w) "bitcoin" bitcoin_rows);
                      ("ethereum",
                       logs_shown isoformat (shard2_up w) "ethereum" ethereum_rows)])]).
Proof.
  exists (select_recent (shard1_db w) "bitcoin" 5),
         (select_recent (shard2_db w) "ethereum" 5).
  split; [apply select_recent_newest|].
  split; [apply select_recent_newest|].
  unfold get_full_report, gather, map, response_data.
  now rewrite !get_avg_shown, !logs_or_error_shown.
Qed.

End Aggregation.

Section AggregationScenario.

Import Sql aggregator_service.

Definition bitcoin_average : json :=
  JObj [("coin", JStr "bitcoin"); ("average_price", JNum 150); ("log_count", JNum 2)].

(** The scenario of the specification: the average call for ethereum times out
    and the other three calls succeed.  Only the ethereum average is a
    marker. *)
Lemma ethereum_average_times_out (isoformat : Z -> string) :
  get_full_report (H := insertion_order_engine) isoformat
    (mk_env (Http.Response 200 (Some bitcoin_average)) Http.NoAnswer
       true (two_bitcoin_logs 1 2) true [])
  = Return
      (JObj [("media_precos",
              JObj [("bitcoin", JNum 150);
                    ("ethereum", JStr "Chave 'average_price' não encontrada")]);
             ("ultimos_logs",
              JObj [("bitcoin",
                     JList [JObj [("coin", JStr "bitcoin"); ("price", JNum 200);
                                  ("timestamp", JStr (isoformat 2))];
                            JObj [("coin", JStr "bitcoin"); ("price", JNum 100);
                                  ("timestamp", JStr (isoformat 1))]]);
                    ("ethereum", JList [])])]).
Proof. reflexivity. Qed.

(** A 503 from [quote_service] is not a [RequestError]: it leaves the call as
    an exception, and the report shows the other marker; a shard that fails
    shows as the error payload of its call. *)
Lemma bitcoin_average_refused (isoformat : Z -> string) :
  get_full_report (H := insertion_order_engine) isoformat
    (mk_env (Http.Response 503 None) (Http.Response 200 (Some bitcoin_average))
       false [] true [])
  = Return
      (JObj [("media_precos",
              JObj [("bitcoin", JStr "Erro"); ("ethereum", JNum 150)]);
             ("ultimos_logs",
              JObj [("bitcoin",
                     JList [JObj [("error",
                                   JStr "Não foi possível obter logs para bitcoin")]]);
                    ("ethereum", JList [])])]).
Proof. reflexivity. Qed.

(** The ethereum average times out and shard 2 fails: the two bitcoin fields
    hold their values, the two ethereum fields their markers. *)
Lemma full_report_degrades_by_field_witness :
  exists bitcoin_rows ethereum_rows,
    newest 5 "bitcoin" (two_bitcoin_logs 1 2) bitcoin_rows /\
    newest 5 "ethereum" [] ethereum_rows /\
    get_full_report (H := insertion_order_engine) (fun _ => "")
      (mk_env (Http.Response 200 (Some bitcoin_average)) Http.NoAnswer
         true (two_bitcoin_logs 1 2) false [])
    = Return
        (JObj [("media_precos",
                JObj [("bitcoin", JNum 150);
                      ("ethereum", JStr "Chave 'average_price' não encontrada")]);
               ("ultimos_logs",
                JObj [("bitcoin", logs_shown (fun _ => "") true "bitcoin" bitcoin_rows);
                      ("ethereum",
                       JList [JObj [("error",
                                     JStr "Não foi possível obter logs para ethereum")]])])]).
Proof.
  exact (full_report_degrades_by_field (H := insertion_order_engine) (fun _ => "")
           (mk_env (Http.Response 200 (Some bitcoin_average)) Http.NoAnswer
              true (two_bitcoin_logs 1 2) false [])).
Defined.

End AggregationScenario.

(** * Further properties of the quote service *)

(** ** The fetch, whatever the upstream does *)

Section FetchInGeneral.

Import quote_service.

(** X2: a 2xx answer whose body is not JSON is not retried.  When it comes
    after [k < 3] failed attempts, the fetch raises the decoding error at
    once, the cache is left alone, and the fallback to the cache is not
    taken. *)
Theorem fetch_bad_body_not_retried (upstream : nat -> Http.outcome) (st : state)
    (k : nat) (status : Z) :
  (k < 3)%nat ->
  (forall i, (i < k)%nat -> fails (upstream i) = true) ->
  Http.is_success status = true ->
  upstream k = Http.Response status None ->
  fetch_quote_from_external_service upstream st = (Raise JSONDecodeError, st).
Proof.
  intros Hk Hf Hs Ho. unfold fetch_quote_from_external_service.
  now apply retrying_garbled with (k := k) (status := status).
Qed.

(** A 503, then a 200 with a body that is not JSON, then the prices. *)
Definition bad_body_second : nat -> Http.outcome :=
  fun i =>
    match i with
    | O => Http.Response 503 None
    | S O => Http.Response 200 None
    | _ => Http.Response 200 (Some quote_50000_3000)
    end.

Lemma fetch_bad_body_not_retried_witness :
  fetch_quote_from_external_service bad_body_second startup
  = (Raise JSONDecodeError, startup).
Proof.
  apply (fetch_bad_body_not_retried bad_body_second startup 1 200).
  - lia.
  - intros i Hi. assert (i = 0%nat) as -> by lia. reflexivity.
  - reflexivity.
  - reflexivity.
Defined.

Lemma retrying_reads_its_attempts (n attempt : nat) (u u' : nat -> Http.outcome)
    (st : state) :
  (forall i, (i < n)%nat -> u (attempt + i)%nat = u' (attempt + i)%nat) ->
  retrying n attempt u st = retrying n attempt u' st.
Proof.
  revert attempt st. induction n as [|n IH]; intros attempt st Hu; [reflexivity|].
  simpl. unfold try_except.
  assert (H0 : u attempt = u' attempt).
  { rewrite <- (Nat.add_0_r attempt). apply Hu. lia. }
  rewrite H0.
  destruct (fetch_once (u' attempt) st) as [[q|e] st1]; [reflexivity|].
  destruct (retry_if_exception_type e); [|reflexivity].
  apply IH. intros i Hi.
  replace (S attempt + i)%nat with (attempt + S i)%nat by lia.
  apply Hu. lia.
Qed.

(** X3: the fetch makes at most three requests: what it returns and what it
    leaves in the cache depend on the first three answers of the upstream
    only. *)
Theorem fetch_reads_three_answers (u u' : nat -> Http.outcome) (st : state) :
  (forall i, (i < 3)%nat -> u i = u' i) ->
  fetch_quote_from_external_service u st = fetch_quote_from_external_service u' st.
Proof.
  intros Hu. unfold fetch_quote_from_external_service.
  apply retrying_reads_its_attempts. intros i Hi. now apply Hu.
Qed.

(** Three 503, and the prices as the fourth answer. *)
Definition good_too_late : nat -> Http.outcome :=
  fun i =>
    match i with
    | O | S O | S (S O) => Http.Response 503 None
    | _ => Http.Response 200 (Some quote_50000_3000)
    end.

Lemma fetch_reads_three_answers_witness :
  fetch_quote_from_external_service good_too_late startup
  = fetch_quote_from_external_service always_503 startup.
Proof.
  apply (fetch_reads_three_answers good_too_late always_503 startup).
  intros i Hi.
  destruct i as [|[|[|i]]]; [reflexivity|reflexivity|reflexivity|lia].
Defined.

End FetchInGeneral.

(** ** What the loop keeps, over any run *)

Section LoopInvariants.

Import Sql quote_service.

Definition only_coin (c : string) (rows : list row) : Prop :=
  Forall (fun r => coin r = c) rows.

(** A call the loop may make: a message on [precos] that is a dict with some
    value that is not zero, or that is the bare NaN (the one value that does
    not equal itself), or an insert of a coin into the shard of the coin. *)
Definition expected (e : event) : Prop :=
  match e with
  | Publish channel payload _ =>
      channel = "precos" /\
      ((is_dict payload = true /\ empty_or_all_zero payload = false) \/
       payload = JNum NaN)
  | Insert db c _ _ _ => shard_of c = Some db
  end.

(** [st'] comes from [st] by appending at most [n] bitcoin rows to shard 1, at
    most [n] ethereum rows to shard 2, and expected calls to the trace. *)
Definition grown (n : nat) (st st' : state) : Prop :=
  exists rows1 rows2 calls,
    shard1_db st' = shard1_db st ++ rows1 /\
    shard2_db st' = shard2_db st ++ rows2 /\
    trace st' = trace st ++ calls /\
    only_coin "bitcoin" rows1 /\ only_coin "ethereum" rows2 /\
    (List.length rows1 <= n)%nat /\ (List.length rows2 <= n)%nat /\
    Forall expected calls.

Lemma grown_same (n : nat) (st st' : state) :
  shard1_db st' = shard1_db st -> shard2_db st' = shard2_db st ->
  trace st' = trace st ->
  grown n st st'.
Proof.
  intros H1 H2 H3. exists [], [], [].
  rewrite !app_nil_r. repeat split; try assumption; try constructor; simpl; lia.
Qed.

Lemma grown_then (n m : nat) (st st1 st2 : state) :
  grown n st st1 -> grown m st1 st2 -> grown (n + m) st st2.
Proof.
  intros (a1 & a2 & ac & Ha1 & Ha2 & Hac & Hb1 & Hb2 & Hl1 & Hl2 & He)
         (b1 & b2 & bc & Hc1 & Hc2 & Hcc & Hd1 & Hd2 & Hm1 & Hm2 & Hf).
  exists (a1 ++ b1), (a2 ++ b2), (ac ++ bc).
  rewrite Hc1, Hc2, Hcc, Ha1, Ha2, Hac, <- !app_assoc, !length_app.
  repeat split; try (apply Forall_app; now split); lia.
Qed.

Lemma grown_more (n m : nat) (st st' : state) :
  (n <= m)%nat -> grown n st st' -> grown m st st'.
Proof.
  intros Hnm (a1 & a2 & ac & H1 & H2 & H3 & H4 & H5 & H6 & H7 & H8).
  exists a1, a2, ac. repeat split; try assumption; lia.
Qed.

Lemma new_rows_of_coin (reachable : bool) (c : string) (p : json) (ts : Z) :
  only_coin c (new_rows reachable c p ts) /\
  (List.length (new_rows reachable c p ts) <= 1)%nat.
Proof.
  unfold new_rows, only_coin.
  destruct reachable; [destruct (as_float p)|]; simpl; split;
    repeat constructor.
Qed.

Lemma after_turn_grown (env : cycle_env) (fields : list (string * json)) (st : state) :
  empty_or_all_zero (JObj fields) = false ->
  grown 1 st (after_turn env fields st).
Proof.
  intros Hz.
  exists (new_rows (shard_up env Shard1) "bitcoin" (price_in fields "bitcoin") (utcnow env 0%nat)),
         (new_rows (shard_up env Shard2) "ethereum" (price_in fields "ethereum") (utcnow env 1%nat)),
         [Publish "precos" (JObj fields) true;
          Insert Shard1 "bitcoin" (price_in fields "bitcoin") (utcnow env 0%nat)
            (lands (shard_up env Shard1) (price_in fields "bitcoin"));
          Insert Shard2 "ethereum" (price_in fields "ethereum") (utcnow env 1%nat)
            (lands (shard_up env Shard2) (price_in fields "ethereum"))].
  unfold after_turn, after_insert, record. simpl. rewrite <- !app_assoc.
  repeat split; try apply new_rows_of_coin.
  constructor; [split; [reflexivity|left; now split]|].
  constructor; [reflexivity|]. constructor; [reflexivity|constructor].
Qed.

Lemma cycle_grown (env : cycle_env) (st : state) :
  grown 1 st (snd (cycle env st)).
Proof.
  destruct (fetch_quote_from_external_service (upstream env) st) as [[quote|e] st1] eqn:Hf.
  - destruct (is_dict quote) eqn:Hd.
    + destruct quote; try discriminate.
      rewrite (cycle_of_dict _ _ _ _ Hf).
      destruct (empty_or_all_zero (JObj fields)) eqn:Hz.
      * now apply grown_same.
      * destruct (redis_up env).
        -- now apply after_turn_grown.
        -- exists [], [], [Publish "precos" (JObj fields) false].
           simpl. rewrite !app_nil_r.
           split; [reflexivity|]. split; [reflexivity|]. split; [reflexivity|].
           split; [constructor|]. split; [constructor|].
           split; [lia|]. split; [lia|].
           constructor; [|constructor].
           split; [reflexivity|]. left. split; [reflexivity|exact Hz].
    + rewrite (cycle_of_other _ _ _ _ Hf Hd).
      pose proof (fetch_returns_cache _ _ _ _ Hf) as ->.
      destruct (truthy quote); [|now apply grown_same].
      destruct (is_nan quote) eqn:Hn; [|now apply grown_same].
      assert (Hq : quote = JNum NaN).
      { destruct quote as [| | [| |] | | |]; try discriminate. reflexivity. }
      assert (Hg : forall b, grown 1 st (record (Publish "precos" quote b) (with_cache quote st))).
      { intros b. exists [], [], [Publish "precos" quote b].
        simpl. rewrite !app_nil_r.
        split; [reflexivity|]. split; [reflexivity|]. split; [reflexivity|].
        split; [constructor|]. split; [constructor|].
        split; [lia|]. split; [lia|].
        constructor; [|constructor].
        split; [reflexivity|]. now right. }
      destruct (redis_up env); apply Hg.
  - rewrite (cycle_of_raise _ _ _ _ Hf). now apply grown_same.
Qed.

Lemma loop_state (env : cycle_env) (later : list cycle_env) (st : state) :
  snd (background_quote_updater (env :: later) st)
  = match cycle env st with
    | (Return _, st1) => snd (background_quote_updater later st1)
    | (Raise _, st1) => st1
    end.
Proof.
  simpl. unfold bind at 1.
  destruct (cycle env st) as [[t|e] st1]; [|reflexivity].
  unfold bind at 1.
  now destruct (background_quote_updater later st1) as [[ts|e] st2].
Qed.

Lemma loop_grown (envs : list cycle_env) (st : state) :
  grown (List.length envs) st (snd (background_quote_updater envs st)).
Proof.
  revert st. induction envs as [|env later IH]; intros st.
  - now apply grown_same.
  - rewrite loop_state. pose proof (cycle_grown env st) as Hc.
    destruct (cycle env st) as [[t|e] st1]; simpl in Hc.
    + change (List.length (env :: later)) with (1 + List.length later)%nat.
      eapply grown_then; [exact Hc|apply IH].
    + eapply grown_more; [|exact Hc]. simpl. lia.
Qed.

(** X4: [store_log] never raises, whatever the coin, the value and the state
    of the shard.  It leaves the cache alone and adds at most one row in all,
    at the end of a table; a row it adds carries the coin and the timestamp of
    the call. *)
Theorem store_log_adds_at_most_one_row (ts : Z) (reachable : shard -> bool)
    (c : string) (p : json) (st : state) :
  exists st' rows1 rows2,
    store_log ts reachable c p st = (Return tt, st') /\
    last_known_quote st' = last_known_quote st /\
    shard1_db st' = shard1_db st ++ rows1 /\
    shard2_db st' = shard2_db st ++ rows2 /\
    (List.length rows1 + List.length rows2 <= 1)%nat /\
    (forall r, In r (rows1 ++ rows2) -> coin r = c /\ timestamp r = ts).
Proof.
  assert (Hnew : forall b r, In r (new_rows b c p ts) ->
                 coin r = c /\ timestamp r = ts).
  { intros b r. unfold new_rows.
    destruct b; [destruct (as_float p)|]; simpl; try tauto.
    intros [<-|[]]. now repeat split. }
  destruct (shard_of c) as [db|] eqn:Hc.
  - rewrite (store_log_routed _ _ _ _ _ _ Hc).
    pose proof (new_rows_of_coin (reachable db) c p ts) as [_ Hlen].
    destruct db.
    + exists (after_insert reachable Shard1 c p ts st),
             (new_rows (reachable Shard1) c p ts), [].
      simpl. rewrite !app_nil_r.
      do 4 (split; [reflexivity|]). split; [lia|].
      intros r Hr. now apply (Hnew (reachable Shard1)).
    + exists (after_insert reachable Shard2 c p ts st),
             [], (new_rows (reachable Shard2) c p ts).
      simpl. rewrite !app_nil_r.
      do 4 (split; [reflexivity|]). split; [lia|].
      intros r Hr. now apply (Hnew (reachable Shard2)).
  - rewrite (store_log_unrouted _ _ _ _ _ Hc).
    exists st, [], []. simpl. rewrite !app_nil_r.
    do 4 (split; [reflexivity|]). split; [lia|].
    intros r [].
Qed.

(** X5: the loop keeps each coin on its shard.  If shard 1 holds bitcoin rows
    only and shard 2 ethereum rows only, this is still so after any number of
    turns, whatever the upstream, Redis and the shards did, and also when the
    run ended in an exception. *)
Theorem shards_keep_their_coin (envs : list cycle_env) (st : state) :
  only_coin "bitcoin" (shard1_db st) ->
  only_coin "ethereum" (shard2_db st) ->
  only_coin "bitcoin" (shard1_db (snd (background_quote_updater envs st))) /\
  only_coin "ethereum" (shard2_db (snd (background_quote_updater envs st))).
Proof.
  intros H1 H2.
  destruct (loop_grown envs st) as (r1 & r2 & _ & E1 & E2 & _ & C1 & C2 & _).
  rewrite E1, E2. split; apply Forall_app; now split.
Qed.

Lemma shards_keep_their_coin_witness :
  let run := background_quote_updater
               [steady (Http.Response 200 (Some quote_50000_3000)); redis_down]
               (mk_state zero_quote [mk_row "bitcoin" 1 0] [mk_row "ethereum" 2 0] []) in
  only_coin "bitcoin" (shard1_db (snd run)) /\
  only_coin "ethereum" (shard2_db (snd run)).
Proof.
  apply (shards_keep_their_coin
           [steady (Http.Response 200 (Some quote_50000_3000)); redis_down]
           (mk_state zero_quote [mk_row "bitcoin" 1 0] [mk_row "ethereum" 2 0] [])).
  - repeat constructor.
  - repeat constructor.
Defined.

(** X6: the logs are append-only under the loop.  After any run of [n] turns
    each shard holds the rows it held before, in the same order, followed by
    at most [n] new rows: the loop never deletes, rewrites or reorders a log,
    and writes at most one row per coin and turn. *)
Theorem logs_are_append_only (envs : list cycle_env) (st : state) :
  exists rows1 rows2,
    shard1_db (snd (background_quote_updater envs st)) = shard1_db st ++ rows1 /\
    shard2_db (snd (background_quote_updater envs st)) = shard2_db st ++ rows2 /\
    (List.length rows1 <= List.length envs)%nat /\
    (List.length rows2 <= List.length envs)%nat.
Proof.
  destruct (loop_grown envs st) as (r1 & r2 & _ & E1 & E2 & _ & _ & _ & L1 & L2 & _).
  now exists r1, r2.
Qed.

(** X7: over any run, the calls the loop makes are added to the end of the
    trace and are of two kinds only: a message on [precos] whose payload is a
    dict with some value that is not zero or, for an upstream body that is the
    bare NaN (which is true and does not equal itself), that NaN; and an
    insert of bitcoin into shard 1 or of ethereum into shard 2.  So the loop
    never publishes an empty or all-zero quote, and never sends a coin to the
    shard of the other. *)
Theorem loop_makes_expected_calls (envs : list cycle_env) (st : state) :
  exists calls,
    trace (snd (background_quote_updater envs st)) = trace st ++ calls /\
    Forall expected calls.
Proof.
  destruct (loop_grown envs st) as (_ & _ & calls & _ & _ & E & _ & _ & _ & _ & He).
  now exists calls.
Qed.

(** X8: a turn cannot tell a stale quote from a fresh one.  When the cache
    holds a dict with some value that is not zero and all three attempts fail,
    the turn goes on as after a good fetch: it publishes the cached quote
    again and calls both inserts with the cached prices. *)
Theorem exhausted_fetch_republishes_cache (env : cycle_env) (st : state)
    (fields : list (string * json)) :
  last_known_quote st = JObj fields ->
  empty_or_all_zero (JObj fields) = false ->
  (forall i, (i < 3)%nat -> fails (upstream env i) = true) ->
  redis_up env = true ->
  exists st',
    cycle env st = (Return Finished, st') /\
    last_known_quote st' = JObj fields /\
    trace st'
    = trace st ++
      [Publish "precos" (JObj fields) true;
       Insert Shard1 "bitcoin" (price_in fields "bitcoin") (utcnow env 0%nat)
         (lands (shard_up env Shard1) (price_in fields "bitcoin"));
       Insert Shard2 "ethereum" (price_in fields "ethereum") (utcnow env 1%nat)
         (lands (shard_up env Shard2) (price_in fields "ethereum"))].
Proof.
  intros Hc Hz Hf Hr.
  assert (Hfetch : fetch_quote_from_external_service (upstream env) st
                   = (Return (JObj fields), st)).
  { rewrite <- Hc. apply retrying_exhausted. intros i Hi. now apply Hf. }
  exists (after_turn env fields st).
  rewrite (cycle_of_dict _ _ _ _ Hfetch), Hz, Hr.
  unfold after_turn, after_insert, record. simpl. rewrite <- !app_assoc.
  repeat split.
Qed.

Lemma exhausted_fetch_republishes_cache_witness :
  let st := mk_state quote_50000_3000 [] [] [] in
  exists st',
    cycle upstream_down st = (Return Finished, st') /\
    last_known_quote st' = quote_50000_3000 /\
    trace st'
    = [Publish "precos" quote_50000_3000 true;
       Insert Shard1 "bitcoin" (JNum 50000) 0 true;
       Insert Shard2 "ethereum" (JNum 3000) 1 true].
Proof.
  apply (exhausted_fetch_republishes_cache upstream_down
           (mk_state quote_50000_3000 [] [] [])
           [("bitcoin", JNum 50000); ("ethereum", JNum 3000)]).
  - reflexivity.
  - reflexivity.
  - intros i _. reflexivity.
  - reflexivity.
Defined.

End LoopInvariants.

(** ** The read endpoints, beyond the small cases *)

Section ReadsInGeneral.

Import Sql quote_service.

Context `{Engine} {U : Unicode}.

(** X9: [get_current_quote] never changes the state, and it answers with a
    price exactly when the cache is a dict that has the lowered coin as a key
    (for a coin written in ASCII: the coin with A to Z replaced by a to z).
    With a cache that is no dict (the upstream may send any JSON) no coin is
    ever served: the endpoint answers 404 or fails on the subscript. *)
Theorem current_quote_needs_a_dict (c : string) (st : state) :
  snd (get_current_quote c st) = st /\
  ((exists body, fst (get_current_quote c st) = Return body) <->
   (exists fields p,
      last_known_quote st = JObj fields /\ lookup (lower c) fields = Some p)) /\
  (forall low,
     ascii_lowercase c = Some low ->
     ((exists body, fst (get_current_quote c st) = Return body) <->
      (exists fields p,
         last_known_quote st = JObj fields /\ lookup low fields = Some p))).
Proof.
  assert (G : snd (get_current_quote c st) = st /\
              ((exists body, fst (get_current_quote c st) = Return body) <->
               (exists fields p,
                  last_known_quote st = JObj fields /\ lookup (lower c) fields = Some p))).
  { unfold get_current_quote, bind, read_cache, lift.
    destruct (last_known_quote st) as [| b | q | s | items | fields] eqn:Hc; simpl.
    1-3: (split; [reflexivity|]; split;
          [intros [body Hb]; discriminate
          |intros (fields & p & Hf & _); discriminate]).
    - destruct (is_substring (lower c) s); simpl;
        (split; [reflexivity|]; split;
         [intros [body Hb]; discriminate
         |intros (fields & p & Hf & _); discriminate]).
    - destruct (existsb _ items); simpl;
        (split; [reflexivity|]; split;
         [intros [body Hb]; discriminate
         |intros (fields & p & Hf & _); discriminate]).
    - destruct (lookup (lower c) fields) as [p|] eqn:Hl; simpl.
      + split; [reflexivity|]. split.
        * intros _. now exists fields, p.
        * intros _. eexists. reflexivity.
      + split; [reflexivity|]. split.
        * intros [body Hb]. discriminate.
        * intros (fields' & p & Hf & Hp). inversion Hf; subst. congruence. }
  destruct G as [G1 G2]. split; [exact G1|]. split; [exact G2|].
  intros low Hl. rewrite <- (lower_of_ascii c low Hl). exact G2.
Qed.

(** For a coin of a shard that cannot be reached, the average endpoint
    raises the database error, not the 404 of an unknown coin, and no default
    average is made up. *)
Lemma average_needs_the_shard (reachable : shard -> bool) (c : string)
    (st : state) (db : shard) :
  shard_of (lower c) = Some db ->
  reachable db = false ->
  get_average_last_10 reachable c st = (Raise DatabaseError, st).
Proof.
  intros Hc Hr. rewrite (get_average_routed reachable c st db Hc), Hr.
  reflexivity.
Qed.


Lemma table_after_insert (reachable : shard -> bool) (db : shard) (c : string)
    (p : json) (ts : Z) (st : state) :
  table db (after_insert reachable db c p ts st)
  = table db st ++ new_rows (reachable db) c p ts.
Proof. now destruct db. Qed.

Lemma shard_of_lower (c : string) (db : shard) : shard_of c = Some db -> lower c = c.
Proof.
  unfold shard_of.
  destruct (String.eqb_spec c "bitcoin") as [->|_]; [reflexivity|].
  destruct (String.eqb_spec c "ethereum") as [->|_]; [reflexivity|discriminate].
Qed.

(** A number the driver can bind to the FLOAT column: a float, or an int that
    [float] converts without overflow. *)
Definition fits_a_double (p : number) : bool :=
  match p with
  | Finite q =>
      match nearest_double q with
      | S754_infinity _ => false
      | _ => true
      end
  | _ => true
  end.

(** X12: a log that [store_log] writes is read back by the average endpoint.
    When the shard of the coin can be reached and holds fewer than ten entries
    of the coin, then after [store_log] with a number that fits a double the
    endpoint counts one entry more. *)
Theorem stored_price_is_counted (ts : Z) (reachable : shard -> bool)
    (c : string) (p : number) (st : state) (db : shard) :
  shard_of c = Some db ->
  reachable db = true ->
  fits_a_double p = true ->
  (List.length (filter (fun r => String.eqb (coin r) c) (table db st)) < 10)%nat ->
  exists st' average_price,
    store_log ts reachable c (JNum p) st = (Return tt, st') /\
    get_average_last_10 reachable c st'
    = (Return
         (JObj [("coin", JStr c);
                ("average_price", average_price);
                ("log_count",
                 JNum (inject_Z
                         (Z.of_nat
                            (S (List.length
                                  (filter (fun r => String.eqb (coin r) c)
                                     (table db st)))))))]), st').
Proof.
  intros Hc Hr _ Hn. pose proof (shard_of_lower c db Hc) as Hl.
  change (filter (fun r => String.eqb (coin r) c) (table db st))
    with (where_coin c (table db st)) in *.
  exists (after_insert reachable db c (JNum p) ts st).
  assert (Hentries : where_coin c (table db (after_insert reachable db c (JNum p) ts st))
                     = where_coin c (table db st) ++ [mk_row c p ts]).
  { rewrite table_after_insert, Hr. unfold where_coin, new_rows. simpl as_float.
    rewrite filter_app. simpl. now rewrite String.eqb_refl. }
  assert (Hc' : shard_of (lower c) = Some db) by now rewrite Hl.
  rewrite (store_log_routed _ _ _ _ _ _ Hc).
  rewrite (average_read reachable c _ db Hc' Hr), Hl.
  rewrite select_recent_all by (rewrite Hentries, length_app; simpl; lia).
  pose proof (order_by_permutes
                (where_coin c (table db (after_insert reachable db c (JNum p) ts st)))) as Hp.
  apply Permutation_length in Hp.
  remember (order_by_timestamp_desc
              (where_coin c (table db (after_insert reachable db c (JNum p) ts st))))
    as ordered eqn:Ho.
  clear Ho. rewrite Hentries, length_app, Nat.add_1_r in Hp.
  destruct ordered as [|r results]; [discriminate|].
  eexists. split; [reflexivity|].
  unfold average_of, average_response. rewrite Hp. reflexivity.
Qed.

End ReadsInGeneral.

Section ReadsInGeneralExamples.

Import Sql quote_service.

(** Eleven bitcoin logs, one per second, the price following the clock. *)
Definition eleven_logs : list row :=
  map (fun i => mk_row "bitcoin" (inject_Z (Z.of_nat i)) (Z.of_nat i)) (seq 1 11).


(** The prices 2 to 11 are averaged, the oldest log is left out. *)
Lemma eleven_logs_average :
  get_average_last_10 (H := insertion_order_engine) (U := ascii_rules)
    (fun _ => true) "bitcoin" (mk_state zero_quote eleven_logs [] [])
  = (Return (JObj [("coin", JStr "bitcoin");
                   ("average_price", JNum (13 # 2));
                   ("log_count", JNum 10)]),
     mk_state zero_quote eleven_logs [] []).
Proof. reflexivity. Qed.

Lemma stored_price_is_counted_witness :
  let st := mk_state zero_quote (two_bitcoin_logs 1 2) [] [] in
  exists st' average_price,
    store_log 3 (fun _ => true) "bitcoin" (JNum 300) st = (Return tt, st') /\
    get_average_last_10 (H := insertion_order_engine) (U := ascii_rules)
      (fun _ => true) "bitcoin" st'
    = (Return (JObj [("coin", JStr "bitcoin");
                     ("average_price", average_price);
                     ("log_count", JNum 3)]), st').
Proof.
  apply (stored_price_is_counted (H := insertion_order_engine) (U := ascii_rules)
           3 (fun _ => true) "bitcoin" 300
           (mk_state zero_quote (two_bitcoin_logs 1 2) [] []) Shard1).
  - reflexivity.
  - reflexivity.
  - reflexivity.
  - simpl. lia.
Defined.

(** "ETHEREUM" is a key of the start-up cache once lowered, so it is served. *)
Lemma current_quote_needs_a_dict_witness :
  ascii_lowercase "ETHEREUM" = Some "ethereum" /\
  exists body, fst (get_current_quote (U := ascii_rules) "ETHEREUM" startup) = Return body.
Proof.
  split; [reflexivity|].
  destruct (current_quote_needs_a_dict (U := ascii_rules) "ETHEREUM" startup)
    as (_ & _ & Hascii).
  apply (Hascii "ethereum" eq_refl).
  exists [("bitcoin", JNum 0); ("ethereum", JNum 0)], (JNum 0).
  split; reflexivity.
Defined.

(** With the start-up cache, "ETHEREUM" is served and "dogecoin" is not. *)
Lemma current_quote_of_the_start_up_cache :
  fst (get_current_quote (U := ascii_rules) "ETHEREUM" startup)
  = Return (JObj [("coin", JStr "ETHEREUM"); ("price", JNum 0)]) /\
  fst (get_current_quote (U := ascii_rules) "dogecoin" startup)
  = Raise (HTTPException 404 "Moeda não encontrada.").
Proof. split; reflexivity. Qed.

End ReadsInGeneralExamples.

(** * Further properties of the aggregator *)

Section LogsInGeneral.

Import Sql aggregator_service.

Context `{Engine}.

(** X13: [fetch_last_logs_from_shard] never raises.  With the shard reachable
    and a limit from 0 up to the largest 64-bit integer it returns a list of
    log entries, at most [limit] of them, each made of a row of the table
    that has the coin asked for; with the shard out of reach, a negative limit
    or a limit the driver cannot send as a 64-bit integer it returns the error
    payload, a list of one dict that has no log in it. *)
Theorem last_logs_or_error_payload (isoformat : Z -> string) (reachable : bool)
    (db : list row) (c : string) (limit : Z) :
  (reachable = true /\ 0 <= limit < 2 ^ 63 ->
   exists rows,
     fetch_last_logs_from_shard isoformat reachable db c limit
     = Return
         (JList
            (map (fun r => JObj [("coin", JStr (coin r));
                                 ("price", JNum (price r));
                                 ("timestamp", JStr (isoformat (timestamp r)))])
               rows)) /\
     (forall r, In r rows -> In r db /\ coin r = c) /\
     Z.of_nat (List.length rows) <= limit) /\
  (reachable = false \/ limit < 0 \/ 2 ^ 63 <= limit ->
   fetch_last_logs_from_shard isoformat reachable db c limit
   = Return
       (JList [JObj [("error", JStr ("Não foi possível obter logs para " ++ c)%string)]])).
Proof.
  unfold fetch_last_logs_from_shard, fetch_all. split.
  - intros [-> [Hl Hu]]. apply Z.leb_le in Hl. apply Z.ltb_lt in Hu.
    rewrite Hl, Hu. cbn [andb].
    exists (select_recent db c (Z.to_nat limit)). split; [reflexivity|]. split.
    + intros r Hr. now apply select_recent_in in Hr.
    + rewrite select_recent_length. apply Z.leb_le in Hl. lia.
  - intros [->|[Hl|Hu]]; [reflexivity| |].
    + apply Z.leb_gt in Hl. rewrite Hl, andb_false_r. reflexivity.
    + assert (Hu' : (limit <? 2 ^ 63) = false) by (apply Z.ltb_ge; exact Hu).
      rewrite Hu', andb_false_r. reflexivity.
Qed.

End LogsInGeneral.

Section LogsInGeneralExamples.

Import Sql aggregator_service.

(** One log asked for out of two, and a limit one above the largest 64-bit
    integer. *)
Lemma last_logs_or_error_payload_witness :
  (exists rows,
     fetch_last_logs_from_shard (H := insertion_order_engine)
       (fun _ => "") true (two_bitcoin_logs 1 2) "bitcoin" 1
     = Return
         (JList
            (map (fun r => JObj [("coin", JStr (coin r));
                                 ("price", JNum (price r));
                                 ("timestamp", JStr "")])
               rows)) /\
     (forall r, In r rows -> In r (two_bitcoin_logs 1 2) /\ coin r = "bitcoin") /\
     Z.of_nat (List.length rows) <= 1) /\
  fetch_last_logs_from_shard (H := insertion_order_engine)
    (fun _ => "") true (two_bitcoin_logs 1 2) "bitcoin" (2 ^ 63)
  = Return (JList [JObj [("error", JStr "Não foi possível obter logs para bitcoin")]]).
Proof.
  split.
  - apply (proj1 (last_logs_or_error_payload (H := insertion_order_engine)
                    (fun _ => "") true (two_bitcoin_logs 1 2) "bitcoin" 1)).
    split; [reflexivity|]. split; [lia|reflexivity].
  - apply (proj2 (last_logs_or_error_payload (H := insertion_order_engine)
                    (fun _ => "") true (two_bitcoin_logs 1 2) "bitcoin" (2 ^ 63))).
    right. right. apply Z.le_refl.
Defined.

End LogsInGeneralExamples.

(** ** The two services together *)

Module fastapi.

(** What [json.dumps(content, allow_nan=False)] accepts: a body with no
    infinity and no NaN in it. *)
Fixpoint json_compliant (j : json) : bool :=
  match j with
  | JNum (Finite _) => true
  | JNum _ => false
  | JList items =>
      (fix all (items : list json) : bool :=
         match items with
         | [] => true
         | x :: items' => json_compliant x && all items'
         end) items
  | JObj fields =>
      (fix all (fields : list (string * json)) : bool :=
         match fields with
         | [] => true
         | (_, v) :: fields' => json_compliant v && all fields'
         end) fields
  | _ => true
  end.

(** What FastAPI sends for a path operation: the returned dict as a 200, an
    [HTTPException] as a response of its status with the detail, and any other
    exception as a 500 whose body is not JSON; the [ValueError] of a returned
    dict that is not JSON compliant is such an exception. *)
Definition respond (r : result json) : Http.outcome :=
  match r with
  | Return body =>
      if json_compliant body then Http.Response 200 (Some body)
      else Http.Response 500 None
  | Raise (HTTPException status_code detail) =>
      Http.Response status_code (Some (JObj [("detail", JStr detail)]))
  | Raise _ => Http.Response 500 None
  end.

End fastapi.

Section Deployment.

Import Sql.

Context `{Engine} {U : Unicode}.

(** The aggregator at work beside the quote service: its two average requests
    are answered by [get_average_last_10] on the state [st], and its two log
    queries read the same tables over connections of its own. *)
Definition deployed (service_sees aggregator_sees : shard -> bool)
    (st : quote_service.state) : aggregator_service.env :=
  aggregator_service.mk_env
    (fastapi.respond (fst (quote_service.get_average_last_10 service_sees "bitcoin" st)))
    (fastapi.respond (fst (quote_service.get_average_last_10 service_sees "ethereum" st)))
    (aggregator_sees Shard1) (quote_service.shard1_db st)
    (aggregator_sees Shard2) (quote_service.shard2_db st).





End Deployment.

Section DeploymentExamples.

Import Sql.

(** Two bitcoin logs and one ethereum log whose price is an infinity: the
    quote service cannot send the ethereum average, and the report shows the
    marker for it. *)
Lemma report_with_an_infinite_price (isoformat : Z -> string) :
  aggregator_service.get_full_report (H := insertion_order_engine) isoformat
    (deployed (H := insertion_order_engine) (U := ascii_rules)
       (fun _ => true) (fun _ => true)
       (quote_service.mk_state quote_service.zero_quote (two_bitcoin_logs 1 2)
          [mk_row "ethereum" (Infinity false) 1] []))
  = Return
      (JObj [("media_precos",
              JObj [("bitcoin", JNum 150); ("ethereum", JStr "Erro")]);
             ("ultimos_logs",
              JObj [("bitcoin",
                     JList [JObj [("coin", JStr "bitcoin"); ("price", JNum 200);
                                  ("timestamp", JStr (isoformat 2))];
                            JObj [("coin", JStr "bitcoin"); ("price", JNum 100);
                                  ("timestamp", JStr (isoformat 1))]]);
                    ("ethereum",
                     JList [JObj [("coin", JStr "ethereum");
                                  ("price", JNum (Infinity false));
                                  ("timestamp", JStr (isoformat 1))]])])]).
Proof. reflexivity. Qed.


End DeploymentExamples.

(** * external_service/main.py *)

Module external_service.

(** [current_prices]: a dict from coin to price (floats in the source, exact
    rationals here). *)
Definition prices : Type := list (string * Q).

Definition current_prices : prices := [("bitcoin", 50000%Q); ("ethereum", 3000%Q)].


(** [random.uniform(a, b)], which is [a + (b - a) * random.random()]; [u] is
    the draw of [random.random()], a number of [0, 1). *)
Definition uniform (a b u : Q) : Q := (a + (b - a) * u)%Q.

(** One pass of [for coin in current_prices], with a draw of its own for each
    coin: [current_prices[coin] *= 1 + change_percent]. *)
Fixpoint update_each (draw : nat -> Q) (i : nat) (ps : prices) : prices :=
  match ps with
  | [] => []
  | (coin, p) :: rest =>
      let change_percent := uniform (- (1 # 100)) (1 # 100) (draw i) in
      (coin, (p * (1 + change_percent))%Q) :: update_each draw (S i) rest
  end.

(** [update_prices] over the rounds that have gone by, each with its draws. *)
Fixpoint update_prices (rounds : list (nat -> Q)) (ps : prices) : prices :=
  match rounds with
  | [] => ps
  | draw :: later => update_prices later (update_each draw 0 ps)
  end.



End external_service.

Section Market.

Import external_service.

(** What [random.random()] promises. *)
Definition unit_draw (draw : nat -> Q) : Prop :=
  forall i, (0 <= draw i /\ draw i < 1)%Q.

Definition positive (ps : prices) : Prop := Forall (fun kp => (0 < snd kp)%Q) ps.

Lemma change_within_one_percent (u : Q) :
  (0 <= u /\ u < 1)%Q ->
  (99 # 100 <= 1 + uniform (- (1 # 100)) (1 # 100) u /\
   1 + uniform (- (1 # 100)) (1 # 100) u <= 101 # 100)%Q.
Proof.
  intros [H0 H1]. unfold uniform.
  assert (E : (1 + (- (1 # 100) + ((1 # 100) - - (1 # 100)) * u)
               == (99 # 100) + (2 # 100) * u)%Q) by ring.
  rewrite E. split.
  - rewrite <- (Qplus_0_r (99 # 100)) at 1.
    apply Qplus_le_compat; [apply Qle_refl|].
    apply Qmult_le_0_compat; [discriminate|exact H0].
  - assert (E' : (101 # 100 == (99 # 100) + (2 # 100) * 1)%Q) by reflexivity.
    rewrite E'. apply Qplus_le_compat; [apply Qle_refl|].
    apply Qmult_le_l; [reflexivity|]. now apply Qlt_le_weak.
Qed.

Lemma update_each_bounds (draw : nat -> Q) (i : nat) (ps : prices) :
  unit_draw draw ->
  positive ps ->
  Forall2 (fun old new =>
             fst new = fst old /\
             ((99 # 100) * snd old <= snd new /\ snd new <= (101 # 100) * snd old)%Q)
    ps (update_each draw i ps).
Proof.
  intros Hd Hp. revert i.
  induction Hp as [|[coin p] ps Hpos _ IH]; intros i; simpl; constructor.
  - simpl in *. destruct (change_within_one_percent (draw i) (Hd i)) as [Hlo Hhi].
    split; [reflexivity|]. split.
    + rewrite (Qmult_comm (99 # 100)).
      apply Qmult_le_l; [exact Hpos|exact Hlo].
    + rewrite (Qmult_comm (101 # 100)).
      apply Qmult_le_l; [exact Hpos|exact Hhi].
  - apply IH.
Qed.

Lemma update_each_keeps (draw : nat -> Q) (i : nat) (ps : prices) :
  unit_draw draw ->
  positive ps ->
  map fst (update_each draw i ps) = map fst ps /\ positive (update_each draw i ps).
Proof.
  intros Hd Hp. pose proof (update_each_bounds draw i ps Hd Hp) as Hb.
  unfold positive in *.
  induction Hb as [|[k p] [k' p'] ps ps' [Hk [Hlo _]] _ IH]; simpl.
  - split; constructor.
  - simpl in *. apply Forall_inv_tail in Hp as Hp'.
    apply Forall_inv in Hp. simpl in Hp.
    destruct (IH Hp') as [IHk IHp]. split.
    + now rewrite Hk, IHk.
    + constructor; [|exact IHp]. simpl.
      eapply Qlt_le_trans; [|exact Hlo].
      apply Qmult_lt_0_compat; [reflexivity|exact Hp].
Qed.

Lemma update_prices_keeps (rounds : list (nat -> Q)) (ps : prices) :
  Forall unit_draw rounds ->
  positive ps ->
  map fst (update_prices rounds ps) = map fst ps /\
  positive (update_prices rounds ps).
Proof.
  intros Hr. revert ps. induction Hr as [|draw later Hd _ IH]; intros ps Hp; simpl.
  - now split.
  - destruct (update_each_keeps draw 0 ps Hd Hp) as [Hk Hpos].
    destruct (IH _ Hpos) as [Hk' Hpos']. split; [congruence|exact Hpos'].
Qed.

(** X16: however long the simulated market runs, the service keeps the same
    coins in the same order and every price stays above zero. *)
Theorem prices_stay_positive (rounds : list (nat -> Q)) (ps : prices) :
  Forall unit_draw rounds ->
  positive ps ->
  map fst (update_prices rounds ps) = map fst ps /\
  positive (update_prices rounds ps).
Proof. apply update_prices_keeps. Qed.

(** Draws that are 0 for bitcoin and 3/4 for ethereum. *)
Definition some_draws : nat -> Q :=
  fun i => match i with O => 0%Q | _ => (3 # 4)%Q end.

Lemma some_draws_unit : unit_draw some_draws.
Proof. intros [|i]; split; simpl; discriminate || reflexivity. Qed.

Lemma current_prices_positive : positive current_prices.
Proof. repeat constructor. Qed.

Lemma prices_stay_positive_witness :
  map fst (update_prices [some_draws; some_draws] current_prices) = ["bitcoin"; "ethereum"] /\
  positive (update_prices [some_draws; some_draws] current_prices).
Proof.
  apply (prices_stay_positive [some_draws; some_draws] current_prices).
  - constructor; [exact some_draws_unit|].
    constructor; [exact some_draws_unit|constructor].
  - exact current_prices_positive.
Defined.

End Market.

(** ** The quote service in front of the external service *)

Section QuotesFromTheMarket.

Import Sql external_service quote_service.












End QuotesFromTheMarket.

(** * client_subscriber/main.py *)

Module client_subscriber.

(** What one [await pubsub.get_message(ignore_subscribe_messages=True,
    timeout=None)] gives: an exception when the connection is gone, [None]
    (a subscribe confirmation is swallowed), or a message dict with its type
    and its data; the data is kept as what [json.loads] makes of it, [None]
    when it is not JSON. *)
Inductive received : Type :=
| Lost
| NoMessage
| Delivery (kind : string) (data : option json).

(** The lines printed for a quote: the row of plus signs, the title, and the
    two prices (the number handed to [.2f], which prints it with two
    decimals). *)
Inductive line : Type :=
| Frame
| Title
| Bitcoin (p : number)
| Ethereum (p : number).

(** [f"{v:.2f}"]: numbers and booleans have the format; a string refuses the
    code [f], the other values refuse any format string.  (The format takes an
    int through [float]: the [OverflowError] of an int beyond the doubles is
    left out, the properties below that depend on it keep to numbers that fit
    a double.) *)
Definition format_2f (v : json) : result number :=
  match v with
  | JNum q => Return q
  | JBool b => Return (Finite (bool_as_num b))
  | JStr _ => Raise ValueError
  | _ => Raise TypeError
  end.

(** The five [print] calls for a decoded quote; a print whose f-string raises
    prints nothing, the earlier ones have printed. *)
Definition show (quote_data : json) (out : list line) : result unit * list line :=
  let out := out ++ [Frame; Title] in
  match get quote_data "bitcoin" (JNum 0) with
  | Raise e => (Raise e, out)
  | Return v =>
      match format_2f v with
      | Raise e => (Raise e, out)
      | Return b =>
          let out := out ++ [Bitcoin b] in
          match get quote_data "ethereum" (JNum 0) with
          | Raise e => (Raise e, out)
          | Return w =>
              match format_2f w with
              | Raise e => (Raise e, out)
              | Return e => (Return tt, out ++ [Ethereum e; Frame])
              end
          end
      end
  end.

(** One turn of [while True]. *)
Definition turn (m : received) (out : list line) : result unit * list line :=
  match m with
  | Lost => (Raise RedisError, out)
  | NoMessage => (Return tt, out)
  | Delivery kind data =>
      if String.eqb kind "message" then
        match data with
        | None => (Raise JSONDecodeError, out)
        | Some quote_data => show quote_data out
        end
      else (Return tt, out)
  end.

(** How the coroutine stands after the messages so far: still in the loop, or
    out of it through [except Exception]. *)
Inductive status : Type :=
| Listening
| Ended (e : exn).

Fixpoint listen (messages : list received) (out : list line) : status * list line :=
  match messages with
  | [] => (Listening, out)
  | m :: later =>
      match turn m out with
      | (Return _, out') => listen later out'
      | (Raise e, out') => (Ended e, out')
      end
  end.

(** [price_subscriber]: [subscribed] tells whether connecting and subscribing
    went through. *)
Definition price_subscriber (subscribed : bool) (messages : list received) : status * list line :=
  if subscribed then listen messages [] else (Ended RedisError, []).

End client_subscriber.

Section Subscriber.

Import client_subscriber.

Definition is_number (v : json) : bool :=
  match v with
  | JNum _ | JBool _ => true
  | _ => false
  end.

(** A number [.2f] prints: a boolean, a float, or an int that [float]
    converts without overflow. *)
Definition prints (v : json) : bool :=
  match v with
  | JBool _ => true
  | JNum (Finite q) =>
      match nearest_double q with
      | S754_infinity _ => false
      | _ => true
      end
  | JNum _ => true
  | _ => false
  end.

(** A delivery the subscriber gets over: nothing, a message of another type,
    or a quote that is a dict whose bitcoin and ethereum values, where it has
    them, are numbers that [.2f] prints. *)
Definition showable (m : received) : bool :=
  match m with
  | Lost => false
  | NoMessage => true
  | Delivery kind data =>
      if String.eqb kind "message" then
        match data with
        | Some (JObj fields) =>
            prints (price_in fields "bitcoin") && prints (price_in fields "ethereum")
        | _ => false
        end
      else true
  end.

(** A delivery that throws the subscriber out of its loop: the connection is
    lost, or a message whose data is not JSON, is no dict, or has a bitcoin or
    ethereum value that is no number. *)
Definition fatal (m : received) : bool :=
  match m with
  | Lost => true
  | NoMessage => false
  | Delivery kind data =>
      if String.eqb kind "message" then
        match data with
        | Some (JObj fields) =>
            negb (is_number (price_in fields "bitcoin") &&
                  is_number (price_in fields "ethereum"))
        | _ => true
        end
      else false
  end.

Definition number_of (v : json) : number :=
  match v with
  | JNum q => q
  | JBool b => Finite (bool_as_num b)
  | _ => Finite 0
  end.

(** The block of lines for a delivery: five lines for a quote, with 0 for a
    coin the quote lacks, and nothing for the rest. *)
Definition block (m : received) : list line :=
  match m with
  | Delivery kind (Some (JObj fields)) =>
      if String.eqb kind "message"
      then [Frame; Title;
            Bitcoin (number_of (price_in fields "bitcoin"));
            Ethereum (number_of (price_in fields "ethereum")); Frame]
      else []
  | _ => []
  end.

Lemma prints_is_number (v : json) : prints v = true -> is_number v = true.
Proof. destruct v as [| b | [q | s |] | s | items | fields]; simpl; congruence. Qed.

Lemma format_of_number (v : json) :
  is_number v = true -> format_2f v = Return (number_of v).
Proof. now destruct v. Qed.

Lemma format_of_other (v : json) :
  is_number v = false -> exists e, format_2f v = Raise e.
Proof. destruct v; try discriminate; intros _; eexists; reflexivity. Qed.

Lemma turn_showable (m : received) (out : list line) :
  showable m = true -> turn m out = (Return tt, out ++ block m).
Proof.
  destruct m as [| |kind data]; simpl.
  - discriminate.
  - intros _. now rewrite app_nil_r.
  - destruct (String.eqb kind "message").
    + destruct data as [[| | | | |fields]|]; try discriminate.
      intros Hn. apply andb_prop in Hn as [Hb He].
      apply prints_is_number in Hb, He.
      unfold show. rewrite !get_of_dict.
      rewrite (format_of_number _ Hb), (format_of_number _ He).
      now rewrite <- !app_assoc.
    + intros _. destruct data as [[| | | | |fields]|]; now rewrite app_nil_r.
Qed.

Lemma turn_fatal (m : received) (out : list line) :
  fatal m = true -> exists e out', turn m out = (Raise e, out').
Proof.
  destruct m as [| |kind data]; simpl.
  - intros _. now exists RedisError, out.
  - discriminate.
  - destruct (String.eqb kind "message"); [|discriminate].
    destruct data as [quote_data|]; [|intros _; now exists JSONDecodeError, out].
    destruct quote_data as [| | | | |fields];
      try (intros _; eexists; eexists; reflexivity).
    intros Hn. apply negb_true_iff in Hn. unfold show. rewrite !get_of_dict.
    destruct (is_number (price_in fields "bitcoin")) eqn:Hb.
    + rewrite (format_of_number _ Hb). simpl in Hn.
      destruct (format_of_other _ Hn) as [e He]. rewrite He.
      eexists. eexists. reflexivity.
    + destruct (format_of_other _ Hb) as [e He]. rewrite He.
      eexists. eexists. reflexivity.
Qed.

Lemma listen_showable (messages : list received) (out : list line) :
  forallb showable messages = true ->
  listen messages out = (Listening, out ++ concat (map block messages)).
Proof.
  revert out. induction messages as [|m later IH]; intros out; simpl.
  - intros _. now rewrite app_nil_r.
  - intros Hs. apply andb_prop in Hs as [Hm Hl].
    rewrite (turn_showable m out Hm), (IH _ Hl). now rewrite <- app_assoc.
Qed.

Lemma listen_fatal (messages : list received) (out : list line) :
  existsb fatal messages = true ->
  exists e out', listen messages out = (Ended e, out').
Proof.
  revert out. induction messages as [|m later IH]; intros out; simpl.
  - discriminate.
  - destruct (fatal m) eqn:Hm; simpl.
    + intros _. destruct (turn_fatal m out Hm) as (e & out' & Ht).
      rewrite Ht. now exists e, out'.
    + intros Hl. destruct (turn m out) as [[u|e] out1].
      * now apply IH.
      * now exists e, out1.
Qed.

(** X19: what the subscriber gets over and what ends it.  As long as every
    delivery is nothing, a message of another type, or a quote that is a dict
    whose bitcoin and ethereum values are, where present, booleans, floats or
    ints within the range of a double, the subscriber stays in its loop and
    has printed, delivery after delivery, the five lines of each quote, with
    0.00 for a coin the quote lacks.  A lost connection, data that is not
    JSON, a quote that is no dict or one whose bitcoin or ethereum value is
    no number ends it with an exception. *)
Theorem subscriber_shows_every_quote (messages : list received) :
  (forallb showable messages = true ->
   price_subscriber true messages = (Listening, concat (map block messages))) /\
  (existsb fatal messages = true ->
   exists e, fst (price_subscriber true messages) = Ended e).
Proof.
  unfold price_subscriber. split.
  - intros Hs. now rewrite (listen_showable messages [] Hs).
  - intros Hs. destruct (listen_fatal messages [] Hs) as (e & out' & He).
    exists e. now rewrite He.
Qed.

Lemma listen_ended (messages later : list received) (out out' : list line) (e : exn) :
  listen messages out = (Ended e, out') ->
  listen (messages ++ later) out = (Ended e, out').
Proof.
  revert out. induction messages as [|m messages IH]; intros out; simpl.
  - discriminate.
  - destruct (turn m out) as [[u|e'] out1]; [apply IH|trivial].
Qed.

(** X20: the subscriber does not come back.  Once a delivery has thrown it
    out of the loop (a lost connection, data that is not JSON, a quote that is
    no dict or has a price that is no number), whatever is published later is
    never printed: the output and the end state stay what they were. *)
Theorem subscriber_stops_for_good (subscribed : bool) (messages later : list received)
    (e : exn) :
  fst (price_subscriber subscribed messages) = Ended e ->
  price_subscriber subscribed (messages ++ later) = price_subscriber subscribed messages.
Proof.
  unfold price_subscriber. destruct subscribed; [|reflexivity].
  intros He. destruct (listen messages []) as [s out'] eqn:Hl.
  simpl in He. subst s. now apply listen_ended.
Qed.

(** A quote whose bitcoin price came as a string. *)
Definition price_as_text : json :=
  JObj [("bitcoin", JStr "50000"); ("ethereum", JNum 3000)].

(** The subscriber prints a quote and stays; a price that is a string ends
    it. *)
Lemma subscriber_shows_every_quote_witness :
  price_subscriber true
    [NoMessage; Delivery "message" (Some quote_50000_3000); Delivery "subscribe" None]
  = (Listening, [Frame; Title; Bitcoin 50000; Ethereum 3000; Frame]) /\
  exists e, fst (price_subscriber true [Delivery "message" (Some price_as_text)]) = Ended e.
Proof.
  split.
  - apply (proj1 (subscriber_shows_every_quote
                    [NoMessage; Delivery "message" (Some quote_50000_3000);
                     Delivery "subscribe" None])).
    reflexivity.
  - apply (proj2 (subscriber_shows_every_quote [Delivery "message" (Some price_as_text)])).
    reflexivity.
Defined.

Lemma subscriber_stops_for_good_witness :
  fst (price_subscriber true
         [Delivery "message" (Some quote_50000_3000);
          Delivery "message" (Some price_as_text)]) = Ended ValueError /\
  price_subscriber true
    ([Delivery "message" (Some quote_50000_3000);
      Delivery "message" (Some price_as_text)]
     ++ [Delivery "message" (Some quote_50000_3000)])
  = price_subscriber true
      [Delivery "message" (Some quote_50000_3000);
       Delivery "message" (Some price_as_text)].
Proof.
  split; [reflexivity|].
  apply (subscriber_stops_for_good true
           [Delivery "message" (Some quote_50000_3000);
            Delivery "message" (Some price_as_text)]
           [Delivery "message" (Some quote_50000_3000)] ValueError).
  reflexivity.
Defined.

End Subscriber.

(** * From the market to the screen *)

Section Pipeline.

Import Sql external_service quote_service client_subscriber.



End Pipeline.

(** * Where the cache comes from *)

Section CacheProvenance.

Import Sql quote_service.

Lemma retrying_cache_source (n attempt : nat) (upstream : nat -> Http.outcome) (st : state) :
  last_known_quote (snd (retrying n attempt upstream st)) = last_known_quote st \/
  exists i,
    (i < attempt + n)%nat /\
    brings (upstream i) (last_known_quote (snd (retrying n attempt upstream st))).
Proof.
  revert attempt. induction n as [|n IH]; intros attempt.
  - now left.
  - destruct (fails (upstream attempt)) eqn:Hf.
    + rewrite retrying_failed_attempt by exact Hf.
      destruct (IH (S attempt)) as [Hs|(i & Hi & Hb)]; [now left|].
      right. exists i. split; [lia|exact Hb].
    + destruct (upstream attempt) as [|status [body|]] eqn:Ho; [discriminate| |].
      * assert (Hb : brings (upstream attempt) body).
        { exists status. split; [|exact Ho].
          simpl in Hf. now apply negb_false_iff in Hf. }
        rewrite (retrying_good_attempt n attempt upstream st body Hb).
        right. exists attempt. split; [lia|exact Hb].
      * left. simpl in Hf. apply negb_false_iff in Hf.
        simpl. unfold try_except, fetch_once, bind, lift. rewrite Ho. simpl.
        now rewrite Hf.
Qed.

Lemma cycle_cache (env : cycle_env) (st : state) :
  last_known_quote (snd (cycle env st))
  = last_known_quote (snd (fetch_quote_from_external_service (upstream env) st)).
Proof.
  destruct (fetch_quote_from_external_service (upstream env) st) as [[quote|e] st1] eqn:Hf.
  - pose proof (fetch_returns_cache _ _ _ _ Hf) as Hst.
    destruct (is_dict quote) eqn:Hd.
    + destruct quote; try discriminate.
      rewrite (cycle_of_dict _ _ _ _ Hf), Hst.
      destruct (empty_or_all_zero (JObj fields)); [reflexivity|].
      now destruct (redis_up env).
    + rewrite (cycle_of_other _ _ _ _ Hf Hd).
      destruct (truthy quote); [|reflexivity].
      destruct (is_nan quote); [|reflexivity].
      now destruct (redis_up env).
  - rewrite (cycle_of_raise _ _ _ _ Hf).
    now rewrite (retrying_raises_unchanged _ _ _ _ _ _ Hf).
Qed.

(** X22: over any run of the loop, the cache at the end is the cache of the
    start or a body that the upstream sent with a 2xx status in one of the
    three attempts of some turn.  No failed attempt, no failed publish and no
    failed insert ever writes it. *)
Theorem cache_holds_an_upstream_body (envs : list cycle_env) (st : state) :
  last_known_quote (snd (background_quote_updater envs st)) = last_known_quote st \/
  exists env i,
    In env envs /\ (i < 3)%nat /\
    brings (upstream env i) (last_known_quote (snd (background_quote_updater envs st))).
Proof.
  revert st. induction envs as [|env later IH]; intros st.
  - now left.
  - rewrite loop_state.
    pose proof (cycle_cache env st) as Hc.
    pose proof (retrying_cache_source 3 0 (upstream env) st) as Hs.
    fold (fetch_quote_from_external_service (upstream env) st) in Hs.
    rewrite <- Hc in Hs.
    destruct (cycle env st) as [[t|e] st1]; simpl in Hs.
    + destruct (IH st1) as [Hl|(env' & i & Hin & Hi & Hb)].
      * rewrite Hl. destruct Hs as [Hs|(i & Hi & Hb)]; [now left|].
        right. exists env, i. split; [now left|]. split; [lia|exact Hb].
      * right. exists env', i. split; [now right|]. now split.
    + destruct Hs as [Hs|(i & Hi & Hb)]; [now left|].
      right. exists env, i. split; [now left|]. split; [lia|exact Hb].
Qed.

End CacheProvenance.
